(** * CAMEL x ACI.dev object-detection notebook: orchestration model

    The notebook [camel-aci.ipynb] is straight-line orchestration code: it
    reads the process environment, builds a server-configuration dict,
    talks to external collaborators (the MCP toolkit, the model factory,
    the chat agent) and prints what the agent answers.

    The embedding below follows the notebook statement by statement, for
    the cells run top to bottom in a fresh kernel.  A statement is a
    computation in a small state-and-exception monad [M] over a
    [Machine]: the process environment, the [.env] file, the notebook's
    global namespace, what the notebook wrote to standard output, and the
    log of every call that left the notebook.

    The collaborators are not part of the repository.  They are a [World]
    of oracles that answer each call, by a value or by raising, as a
    function of everything the notebook did before; the theorems hold for
    every world.  What is assumed of them is their calling contract only:
    - a constructor returns an object that remembers its keyword
      arguments, [get_tools] returns a list of tool descriptors, [astep]
      returns a response with a [msg.content] text;
    - [await] suspends the notebook until the collaborator has answered,
      so an awaited call is a call;
    - a call to a collaborator does not rebind the notebook's globals
      nor change the process environment; what a collaborator writes to
      the console on its own (warnings of its logger) is not the
      notebook's output and is not modelled.

    Importing a third-party package runs the package's module code,
    which is library code as well: it may read the process environment
    and the [.env] file, change the process environment (python-dotenv
    exists to do that), or raise; when it returns, the imported name is
    bound.  The same oracle discipline applies: the world decides, as a
    function of the log, the process environment and the [.env] file.
    The module [os] belongs to the standard library and is loaded when
    the interpreter starts, so [import os] only binds the name. *)

From Stdlib Require Import String Ascii ZArith QArith List Lia.
From stdpp Require Import base option gmap strings list.


(** ** Python values that occur in the notebook *)

(** Exceptions.  [NameError] is what reading an unbound global raises,
    [ImportError] what an import raises when the package or the name is
    missing; every other failure inside library code is a
    [CollaboratorError]. *)
Inductive Exception :=
| NameError (name : string)
| ImportError (name : string)
| CollaboratorError (message : string).

(** The result of evaluating a call: a value, or a raised exception. *)
Inductive Outcome (A : Type) :=
| Ok (a : A)
| Raise (e : Exception).
Arguments Ok {A} a.
Arguments Raise {A} e.

(** Numbers of [model_config_dict]: [0.0] is a float, [4096] an int. *)
Inductive Number :=
| PyFloat (q : Q)
| PyInt (z : Z).

(** One entry of ["mcpServers"]: launch command, argument list and the
    environment injected in the server process.  [os.getenv] may return
    [None], so the values of [env] are optional strings: a key bound to
    [None] is different from a key that is not in the dict. *)
Record ServerConfig := {
  command : string;
  args : list string;
  env : gmap string (option string) }.

(** [mcp_config]: section name -> server name -> server entry. *)
Abbreviation McpConfig := (gmap string (gmap string ServerConfig)).

(** [ModelPlatformType]: the notebook names one member. *)
Inductive ModelPlatformType := GEMINI.

(** A tool descriptor returned by [get_tools]; opaque to the notebook. *)
Record FunctionTool := { tool_name : string }.

(** The agent memory object; the notebook only ever passes [None]. *)
Inductive AgentMemory := .

(** A library object bound by an import statement.  The notebook only
    calls it or reads an attribute of it, so it is known by where it
    came from. *)
Inductive Imported :=
| py_module (name : string)
| py_attribute (module name : string).

(** Collaborator objects remember the keyword arguments they were built
    from; nothing else about them is visible to the notebook. *)
Module MCPToolkit.
Record t := { config_dict : McpConfig }.
End MCPToolkit.

Module Model.
Record t := {
  model_platform : ModelPlatformType;
  model_type : string;
  api_key : option string;
  model_config_dict : gmap string Number }.
End Model.

Module BaseMessage.
Record t := { role_name : string; content : string }.
End BaseMessage.

Module ChatAgent.
Record t := {
  model : Model.t;
  system_message : BaseMessage.t;
  tools : list FunctionTool;
  memory : option AgentMemory }.
End ChatAgent.

Module ChatAgentResponse.
Record t := { msg : BaseMessage.t }.
End ChatAgentResponse.

(** ** The notebook's global namespace

    One field per name the notebook binds, by assignment or by import,
    in the order of their first binding; [None] is an unbound name. *)
Module Globals.
Record t := {
  os : option Imported;
  load_dotenv : option Imported;
  agent_name : option string;
  system_prompt : option string;
  MCPToolkit : option Imported;
  mcp_config : option McpConfig;
  mcp_toolkit : option MCPToolkit.t;
  ChatAgent : option Imported;
  BaseMessage : option Imported;
  ModelFactory : option Imported;
  ModelPlatformType : option Imported;
  tools : option (list FunctionTool);
  model : option Model.t;
  sys_msg : option BaseMessage.t;
  agent : option ChatAgent.t;
  tasks : option (list string);
  task : option string;
  response : option ChatAgentResponse.t }.

Definition empty : t :=
  {| os := None; load_dotenv := None; agent_name := None;
     system_prompt := None; MCPToolkit := None; mcp_config := None;
     mcp_toolkit := None; ChatAgent := None; BaseMessage := None;
     ModelFactory := None; ModelPlatformType := None; tools := None;
     model := None; sys_msg := None; agent := None; tasks := None;
     task := None; response := None |}.

Definition set_os (v : Imported) (g : t) : t :=
  {| os := Some v; load_dotenv := load_dotenv g; agent_name := agent_name g;
     system_prompt := system_prompt g; MCPToolkit := MCPToolkit g;
     mcp_config := mcp_config g; mcp_toolkit := mcp_toolkit g;
     ChatAgent := ChatAgent g; BaseMessage := BaseMessage g;
     ModelFactory := ModelFactory g; ModelPlatformType := ModelPlatformType g;
     tools := tools g; model := model g; sys_msg := sys_msg g;
     agent := agent g; tasks := tasks g; task := task g;
     response := response g |}.

Definition set_load_dotenv (v : Imported) (g : t) : t :=
  {| os := os g; load_dotenv := Some v; agent_name := agent_name g;
     system_prompt := system_prompt g; MCPToolkit := MCPToolkit g;
     mcp_config := mcp_config g; mcp_toolkit := mcp_toolkit g;
     ChatAgent := ChatAgent g; BaseMessage := BaseMessage g;
     ModelFactory := ModelFactory g; ModelPlatformType := ModelPlatformType g;
     tools := tools g; model := model g; sys_msg := sys_msg g;
     agent := agent g; tasks := tasks g; task := task g;
     response := response g |}.

Definition set_agent_name (v : string) (g : t) : t :=
  {| os := os g; load_dotenv := load_dotenv g; agent_name := Some v;
     system_prompt := system_prompt g; MCPToolkit := MCPToolkit g;
     mcp_config := mcp_config g; mcp_toolkit := mcp_toolkit g;
     ChatAgent := ChatAgent g; BaseMessage := BaseMessage g;
     ModelFactory := ModelFactory g; ModelPlatformType := ModelPlatformType g;
     tools := tools g; model := model g; sys_msg := sys_msg g;
     agent := agent g; tasks := tasks g; task := task g;
     response := response g |}.

Definition set_system_prompt (v : string) (g : t) : t :=
  {| os := os g; load_dotenv := load_dotenv g; agent_name := agent_name g;
     system_prompt := Some v; MCPToolkit := MCPToolkit g;
     mcp_config := mcp_config g; mcp_toolkit := mcp_toolkit g;
     ChatAgent := ChatAgent g; BaseMessage := BaseMessage g;
     ModelFactory := ModelFactory g; ModelPlatformType := ModelPlatformType g;
     tools := tools g; model := model g; sys_msg := sys_msg g;
     agent := agent g; tasks := tasks g; task := task g;
     response := response g |}.

Definition set_MCPToolkit (v : Imported) (g : t) : t :=
  {| os := os g; load_dotenv := load_dotenv g; agent_name := agent_name g;
     system_prompt := system_prompt g; MCPToolkit := Some v;
     mcp_config := mcp_config g; mcp_toolkit := mcp_toolkit g;
     ChatAgent := ChatAgent g; BaseMessage := BaseMessage g;
     ModelFactory := ModelFactory g; ModelPlatformType := ModelPlatformType g;
     tools := tools g; model := model g; sys_msg := sys_msg g;
     agent := agent g; tasks := tasks g; task := task g;
     response := response g |}.

Definition set_mcp_config (v : McpConfig) (g : t) : t :=
  {| os := os g; load_dotenv := load_dotenv g; agent_name := agent_name g;
     system_prompt := system_prompt g; MCPToolkit := MCPToolkit g;
     mcp_config := Some v; mcp_toolkit := mcp_toolkit g;
     ChatAgent := ChatAgent g; BaseMessage := BaseMessage g;
     ModelFactory := ModelFactory g; ModelPlatformType := ModelPlatformType g;
     tools := tools g; model := model g; sys_msg := sys_msg g;
     agent := agent g; tasks := tasks g; task := task g;
     response := response g |}.

Definition set_mcp_toolkit (v : MCPToolkit.t) (g : t) : t :=
  {| os := os g; load_dotenv := load_dotenv g; agent_name := agent_name g;
     system_prompt := system_prompt g; MCPToolkit := MCPToolkit g;
     mcp_config := mcp_config g; mcp_toolkit := Some v;
     ChatAgent := ChatAgent g; BaseMessage := BaseMessage g;
     ModelFactory := ModelFactory g; ModelPlatformType := ModelPlatformType g;
     tools := tools g; model := model g; sys_msg := sys_msg g;
     agent := agent g; tasks := tasks g; task := task g;
     response := response g |}.

Definition set_ChatAgent (v : Imported) (g : t) : t :=
  {| os := os g; load_dotenv := load_dotenv g; agent_name := agent_name g;
     system_prompt := system_prompt g; MCPToolkit := MCPToolkit g;
     mcp_config := mcp_config g; mcp_toolkit := mcp_toolkit g;
     ChatAgent := Some v; BaseMessage := BaseMessage g;
     ModelFactory := ModelFactory g; ModelPlatformType := ModelPlatformType g;
     tools := tools g; model := model g; sys_msg := sys_msg g;
     agent := agent g; tasks := tasks g; task := task g;
     response := response g |}.

Definition set_BaseMessage (v : Imported) (g : t) : t :=
  {| os := os g; load_dotenv := load_dotenv g; agent_name := agent_name g;
     system_prompt := system_prompt g; MCPToolkit := MCPToolkit g;
     mcp_config := mcp_config g; mcp_toolkit := mcp_toolkit g;
     ChatAgent := ChatAgent g; BaseMessage := Some v;
     ModelFactory := ModelFactory g; ModelPlatformType := ModelPlatformType g;
     tools := tools g; model := model g; sys_msg := sys_msg g;
     agent := agent g; tasks := tasks g; task := task g;
     response := response g |}.

Definition set_ModelFactory (v : Imported) (g : t) : t :=
  {| os := os g; load_dotenv := load_dotenv g; agent_name := agent_name g;
     system_prompt := system_prompt g; MCPToolkit := MCPToolkit g;
     mcp_config := mcp_config g; mcp_toolkit := mcp_toolkit g;
     ChatAgent := ChatAgent g; BaseMessage := BaseMessage g;
     ModelFactory := Some v; ModelPlatformType := ModelPlatformType g;
     tools := tools g; model := model g; sys_msg := sys_msg g;
     agent := agent g; tasks := tasks g; task := task g;
     response := response g |}.

Definition set_ModelPlatformType (v : Imported) (g : t) : t :=
  {| os := os g; load_dotenv := load_dotenv g; agent_name := agent_name g;
     system_prompt := system_prompt g; MCPToolkit := MCPToolkit g;
     mcp_config := mcp_config g; mcp_toolkit := mcp_toolkit g;
     ChatAgent := ChatAgent g; BaseMessage := BaseMessage g;
     ModelFactory := ModelFactory g; ModelPlatformType := Some v;
     tools := tools g; model := model g; sys_msg := sys_msg g;
     agent := agent g; tasks := tasks g; task := task g;
     response := response g |}.

Definition set_tools (v : (list FunctionTool)) (g : t) : t :=
  {| os := os g; load_dotenv := load_dotenv g; agent_name := agent_name g;
     system_prompt := system_prompt g; MCPToolkit := MCPToolkit g;
     mcp_config := mcp_config g; mcp_toolkit := mcp_toolkit g;
     ChatAgent := ChatAgent g; BaseMessage := BaseMessage g;
     ModelFactory := ModelFactory g; ModelPlatformType := ModelPlatformType g;
     tools := Some v; model := model g; sys_msg := sys_msg g;
     agent := agent g; tasks := tasks g; task := task g;
     response := response g |}.

Definition set_model (v : Model.t) (g : t) : t :=
  {| os := os g; load_dotenv := load_dotenv g; agent_name := agent_name g;
     system_prompt := system_prompt g; MCPToolkit := MCPToolkit g;
     mcp_config := mcp_config g; mcp_toolkit := mcp_toolkit g;
     ChatAgent := ChatAgent g; BaseMessage := BaseMessage g;
     ModelFactory := ModelFactory g; ModelPlatformType := ModelPlatformType g;
     tools := tools g; model := Some v; sys_msg := sys_msg g;
     agent := agent g; tasks := tasks g; task := task g;
     response := response g |}.

Definition set_sys_msg (v : BaseMessage.t) (g : t) : t :=
  {| os := os g; load_dotenv := load_dotenv g; agent_name := agent_name g;
     system_prompt := system_prompt g; MCPToolkit := MCPToolkit g;
     mcp_config := mcp_config g; mcp_toolkit := mcp_toolkit g;
     ChatAgent := ChatAgent g; BaseMessage := BaseMessage g;
     ModelFactory := ModelFactory g; ModelPlatformType := ModelPlatformType g;
     tools := tools g; model := model g; sys_msg := Some v; agent := agent g;
     tasks := tasks g; task := task g; response := response g |}.

Definition set_agent (v : ChatAgent.t) (g : t) : t :=
  {| os := os g; load_dotenv := load_dotenv g; agent_name := agent_name g;
     system_prompt := system_prompt g; MCPToolkit := MCPToolkit g;
     mcp_config := mcp_config g; mcp_toolkit := mcp_toolkit g;
     ChatAgent := ChatAgent g; BaseMessage := BaseMessage g;
     ModelFactory := ModelFactory g; ModelPlatformType := ModelPlatformType g;
     tools := tools g; model := model g; sys_msg := sys_msg g;
     agent := Some v; tasks := tasks g; task := task g; response := response g |}.

Definition set_tasks (v : (list string)) (g : t) : t :=
  {| os := os g; load_dotenv := load_dotenv g; agent_name := agent_name g;
     system_prompt := system_prompt g; MCPToolkit := MCPToolkit g;
     mcp_config := mcp_config g; mcp_toolkit := mcp_toolkit g;
     ChatAgent := ChatAgent g; BaseMessage := BaseMessage g;
     ModelFactory := ModelFactory g; ModelPlatformType := ModelPlatformType g;
     tools := tools g; model := model g; sys_msg := sys_msg g;
     agent := agent g; tasks := Some v; task := task g; response := response g |}.

Definition set_task (v : string) (g : t) : t :=
  {| os := os g; load_dotenv := load_dotenv g; agent_name := agent_name g;
     system_prompt := system_prompt g; MCPToolkit := MCPToolkit g;
     mcp_config := mcp_config g; mcp_toolkit := mcp_toolkit g;
     ChatAgent := ChatAgent g; BaseMessage := BaseMessage g;
     ModelFactory := ModelFactory g; ModelPlatformType := ModelPlatformType g;
     tools := tools g; model := model g; sys_msg := sys_msg g;
     agent := agent g; tasks := tasks g; task := Some v;
     response := response g |}.

Definition set_response (v : ChatAgentResponse.t) (g : t) : t :=
  {| os := os g; load_dotenv := load_dotenv g; agent_name := agent_name g;
     system_prompt := system_prompt g; MCPToolkit := MCPToolkit g;
     mcp_config := mcp_config g; mcp_toolkit := mcp_toolkit g;
     ChatAgent := ChatAgent g; BaseMessage := BaseMessage g;
     ModelFactory := ModelFactory g; ModelPlatformType := ModelPlatformType g;
     tools := tools g; model := model g; sys_msg := sys_msg g;
     agent := agent g; tasks := tasks g; task := task g; response := Some v |}.
End Globals.

(** ** Calls that leave the notebook

    Every call the notebook makes is logged with its arguments and with
    what came back, and so is every import of a third-party package.
    [E_load_dotenv] is the call the imported [load_dotenv] would log. *)
Inductive Event :=
| E_import (module name : string) (r : Outcome unit)
| E_getenv (key : string) (value : option string)
| E_load_dotenv
| E_MCPToolkit (config_dict : McpConfig) (r : Outcome unit)
| E_connect (self : MCPToolkit.t) (r : Outcome unit)
| E_get_tools (self : MCPToolkit.t) (r : Outcome (list FunctionTool))
| E_ModelFactory_create (kwargs : Model.t) (r : Outcome unit)
| E_make_assistant_message (kwargs : BaseMessage.t) (r : Outcome unit)
| E_ChatAgent (kwargs : ChatAgent.t) (r : Outcome unit)
| E_astep (self : ChatAgent.t) (input_message : string)
          (r : Outcome ChatAgentResponse.t)
| E_print (text : string)
| E_disconnect (self : MCPToolkit.t) (r : Outcome unit).

(** The external collaborators.  Each oracle sees the log so far, so a
    collaborator may answer differently on every call (a mock agent that
    raises on its second invocation is such a world).  [w_import] is the
    module code run by [from module import name]: given the process
    environment and the [.env] file, it returns or raises, and leaves a
    process environment behind. *)
Record World := {
  w_import : list Event → string → string → gmap string string →
             gmap string string → Outcome unit * gmap string string;
  w_MCPToolkit : list Event → McpConfig → Outcome unit;
  w_connect : list Event → MCPToolkit.t → Outcome unit;
  w_get_tools : list Event → MCPToolkit.t → Outcome (list FunctionTool);
  w_ModelFactory_create : list Event → Model.t → Outcome unit;
  w_make_assistant_message : list Event → BaseMessage.t → Outcome unit;
  w_ChatAgent : list Event → ChatAgent.t → Outcome unit;
  w_astep : list Event → ChatAgent.t → string → Outcome ChatAgentResponse.t;
  w_disconnect : list Event → MCPToolkit.t → Outcome unit }.

(** ** The machine and its monad *)
Record Machine := {
  environ : gmap string string;      (* os.environ *)
  dotenv_file : gmap string string;  (* the key/value pairs of [.env] *)
  globals : Globals.t;
  stdout : string;                   (* what the notebook has printed *)
  trace : list Event }.              (* the calls made so far, oldest first *)

(** A fresh kernel: nothing bound, nothing printed, nothing called. *)
Definition boot (env file : gmap string string) : Machine :=
  {| environ := env; dotenv_file := file; globals := Globals.empty;
     stdout := EmptyString; trace := [] |}.

Definition M (A : Type) : Type := Machine → Outcome A * Machine.

#[global] Instance M_ret : MRet M := λ A a m, (Ok a, m).

#[global] Instance M_bind : MBind M := λ A B k c m,
  match c m with
  | (Ok a, m') => k a m'
  | (Raise e, m') => (Raise e, m')
  end.

Definition log (ev : Event) (m : Machine) : Machine :=
  {| environ := environ m; dotenv_file := dotenv_file m;
     globals := globals m; stdout := stdout m;
     trace := trace m ++ [ev] |}.

Definition update_globals (f : Globals.t → Globals.t) (m : Machine) : Machine :=
  {| environ := environ m; dotenv_file := dotenv_file m;
     globals := f (globals m); stdout := stdout m; trace := trace m |}.

Definition write_stdout (s : string) (m : Machine) : Machine :=
  {| environ := environ m; dotenv_file := dotenv_file m;
     globals := globals m; stdout := stdout m +:+ s; trace := trace m |}.

Definition update_environ (f : gmap string string → gmap string string)
    (m : Machine) : Machine :=
  {| environ := f (environ m); dotenv_file := dotenv_file m;
     globals := globals m; stdout := stdout m; trace := trace m |}.

Definition nl : string := String "010"%char EmptyString.
Definition dq : string := String "034"%char EmptyString.

(** Reading a global: [NameError] when the name is unbound. *)
Definition load {A} (name : string) (field : Globals.t → option A) : M A :=
  λ m, match field (globals m) with
       | Some v => (Ok v, m)
       | None => (Raise (NameError name), m)
       end.

(** Binding a global. *)
Definition store {A} (setter : A → Globals.t → Globals.t) (v : A) : M unit :=
  λ m, (Ok (), update_globals (setter v) m).

(** [os.getenv(key)]: the value in the process environment, or [None]. *)
Definition os_getenv (key : string) : M (option string) :=
  λ m, let v := environ m !! key in (Ok v, log (E_getenv key v) m).

(** [load_dotenv()] of python-dotenv with its defaults: every key of the
    [.env] file that the process environment does not have yet is added
    to it; the result says whether the file had any key. *)
Definition load_dotenv : M bool :=
  λ m, (Ok (negb (bool_decide (dotenv_file m = ∅))),
        log E_load_dotenv (update_environ (λ e, e ∪ dotenv_file m) m)).

(** [print(text)]: the text and a newline go to standard output. *)
Definition print (text : string) : M unit :=
  λ m, (Ok (), log (E_print text) (write_stdout (text +:+ nl) m)).

(** A call to a collaborator: the world answers from the log so far, the
    call is logged with the answer, and a raised exception propagates. *)
Definition call {A} (oracle : list Event → Outcome A) (ev : Outcome A → Event)
    : M A :=
  λ m, let r := oracle (trace m) in (r, log (ev r) m).

(** [from module import name]: the module code runs, which is logged
    with its outcome and replaces the process environment by the one it
    leaves behind; when it returned, the name is bound. *)
Definition from_import
    (oracle : list Event → gmap string string → gmap string string →
              Outcome unit * gmap string string)
    (module name : string) (setter : Imported → Globals.t → Globals.t)
    : M unit :=
  λ m, let a := oracle (trace m) (environ m) (dotenv_file m) in
       let m' := log (E_import module name a.1)
                     (update_environ (λ _, a.2) m) in
       match a.1 with
       | Ok _ => (Ok (), update_globals (setter (py_attribute module name)) m')
       | Raise e => (Raise e, m')
       end.

(** Statements in sequence; the first exception ends the sequence. *)
Fixpoint exec (stmts : list (M unit)) : M unit :=
  match stmts with
  | [] => mret ()
  | s :: rest => s ;; exec rest
  end.

(** [for x in xs: body]. *)
Fixpoint for_each {A} (xs : list A) (body : A → M unit) : M unit :=
  match xs with
  | [] => mret ()
  | x :: rest => body x ;; for_each rest body
  end.

(** ** The notebook, statement by statement *)

(** The three prompts of the [tasks] tuple. *)
Definition notebook_tasks : list string :=
  [ "Analyze the vegetable stall and identify all produce, including tomato, onion, cabbage, cucumber, zucchini, carrot, and beet, in this image: https://images.pexels.com/photos/2255935/pexels-photo-2255935.jpeg";
    "Analyze the busy street scene and identify all vehicles, such as car, bus, and truck, as well as people, in this image: https://www.livemint.com/rf/Image-621x414/LiveMint/Period1/2012/10/01/Photos/Road621.jpg";
    "Analyze the warehouse scene and identify persons, cardboard boxes, and conveyor belts in this image: https://media.business-humanrights.org/media/images/16278498935_dac4d8f223_o.2e16d0ba.fill-1000x1000-c50.jpg" ].

(** The text between the triple quotes of [system_prompt].  The author
    wrote adjacent quoted fragments inside one triple-quoted literal, so
    the quote characters and line breaks are part of the string. *)
Definition fragment_break : string := dq +:+ nl +:+ dq.

Definition system_prompt_literal : string :=
  nl +:+
  "You are a specialized Object Detection Agent. Your primary function is to use the `REPLICATE.run` tool for object detection and present the findings in a user-friendly format. " +:+
  fragment_break +:+
  "The user will provide a text prompt containing an image URL and a query. You must extract the `image` URL and the `query` object(s). " +:+
  fragment_break +:+
  "Immediately call the `REPLICATE.run` tool. The `input` must be a dictionary with two keys: `image` (the URL) and `query` (a string of the object(s)). " +:+
  fragment_break +:+
  "Do not ask for clarification; make a reasonable inference if the query is ambiguous. " +:+
  fragment_break +:+
  "After receiving the tool's output, format your response as follows: " +:+
  fragment_break +:+
  "- **Natural Language Summary:** Start with a detailed friendly, insightful analysis of the detection results in plain English. " +:+
  fragment_break +:+
  "- **Markdown Table:** Create a markdown table with columns: 'Object', 'Confidence Score', and 'Bounding Box Coordinates'. " +:+
  fragment_break +:+
  "- **Result Image:** If the tool provides a URL for an image with bounding boxes, display it using markdown: `![Detected Objects](URL_HERE)`. " +:+
  fragment_break +:+
  "Whenever I give you a link, trigger the tool call, extract its outputs and links, and present me in a proper markdown format with detailed analysis from the tool call in natural language." +:+
  nl.

(** The dict literal bound to [mcp_config], with the value that
    [os.getenv("ACI_API_KEY")] returned. *)
Definition mcp_config_literal (aci_api_key : option string) : McpConfig :=
  {[ "mcpServers" :=
       {[ "aci_apps" :=
            {| command := "aci-mcp";
               args := [ "apps-server"; "--apps=REPLICATE";
                         "--linked-account-owner-id"; "parthshr370" ];
               env := {[ "ACI_API_KEY" := aci_api_key ]} |} ]} ]}.

(** The keyword arguments of [ModelFactory.create], with the value that
    [os.getenv("GOOGLE_API_KEY")] returned. *)
Definition model_kwargs (google_api_key : option string) : Model.t :=
  {| Model.model_platform := GEMINI;
     Model.model_type := "gemini-2.5-flash";
     Model.api_key := google_api_key;
     Model.model_config_dict :=
       {[ "temperature" := PyFloat 0; "max_tokens" := PyInt 4096 ]} |}.

Section Notebook.
Variable w : World.

(** Cell 3d4c4add: [%pip install camel-ai aci-mcp aci-sdk].  Package
    installation happens outside the machine modelled here. *)
Definition pip_install : M unit := mret ().

Definition cell_3d4c4add : list (M unit) := [ pip_install ].

(** Cell 3e484b89: the two imports.  [load_dotenv] is bound, not called. *)
(* import os *)
Definition import_os : M unit := store Globals.set_os (py_module "os").

(* from dotenv import load_dotenv *)
Definition import_load_dotenv : M unit :=
  from_import (λ tr, w_import w tr "dotenv" "load_dotenv")
    "dotenv" "load_dotenv" Globals.set_load_dotenv.

Definition cell_3e484b89 : list (M unit) := [ import_os; import_load_dotenv ].

(** Cell df8125d7. *)
Definition assign_agent_name : M unit :=
  store Globals.set_agent_name "ObjectDetectionAgent".

Definition assign_system_prompt : M unit :=
  store Globals.set_system_prompt system_prompt_literal.

Definition cell_df8125d7 : list (M unit) :=
  [ assign_agent_name; assign_system_prompt ].

(** Cell 5b360b6a. *)
(* from camel.toolkits import MCPToolkit *)
Definition import_MCPToolkit : M unit :=
  from_import (λ tr, w_import w tr "camel.toolkits" "MCPToolkit")
    "camel.toolkits" "MCPToolkit" Globals.set_MCPToolkit.

(* mcp_config = { ... "env": {"ACI_API_KEY": os.getenv("ACI_API_KEY")} ... } *)
Definition assign_mcp_config : M unit :=
  load "os" Globals.os;;
  aci_api_key ← os_getenv "ACI_API_KEY";
  store Globals.set_mcp_config (mcp_config_literal aci_api_key).

(* mcp_toolkit = MCPToolkit(config_dict=mcp_config) *)
Definition assign_mcp_toolkit : M unit :=
  load "MCPToolkit" Globals.MCPToolkit;;
  mcp_config ← load "mcp_config" Globals.mcp_config;
  call (λ tr, w_MCPToolkit w tr mcp_config) (E_MCPToolkit mcp_config);;
  store Globals.set_mcp_toolkit {| MCPToolkit.config_dict := mcp_config |}.

(* await mcp_toolkit.connect()   -- the value of the call is not bound *)
Definition await_connect : M unit :=
  mcp_toolkit ← load "mcp_toolkit" Globals.mcp_toolkit;
  call (λ tr, w_connect w tr mcp_toolkit) (E_connect mcp_toolkit).

Definition cell_5b360b6a : list (M unit) :=
  [ import_MCPToolkit; assign_mcp_config; assign_mcp_toolkit; await_connect ].

(** Cell 834b52ff. *)
(* from camel.agents import ChatAgent *)
Definition import_ChatAgent : M unit :=
  from_import (λ tr, w_import w tr "camel.agents" "ChatAgent")
    "camel.agents" "ChatAgent" Globals.set_ChatAgent.

(* from camel.messages import BaseMessage *)
Definition import_BaseMessage : M unit :=
  from_import (λ tr, w_import w tr "camel.messages" "BaseMessage")
    "camel.messages" "BaseMessage" Globals.set_BaseMessage.

(* from camel.models import ModelFactory *)
Definition import_ModelFactory : M unit :=
  from_import (λ tr, w_import w tr "camel.models" "ModelFactory")
    "camel.models" "ModelFactory" Globals.set_ModelFactory.

(* from camel.types import ModelPlatformType *)
Definition import_ModelPlatformType : M unit :=
  from_import (λ tr, w_import w tr "camel.types" "ModelPlatformType")
    "camel.types" "ModelPlatformType" Globals.set_ModelPlatformType.

(* tools = mcp_toolkit.get_tools() *)
Definition assign_tools : M unit :=
  mcp_toolkit ← load "mcp_toolkit" Globals.mcp_toolkit;
  tools ← call (λ tr, w_get_tools w tr mcp_toolkit) (E_get_tools mcp_toolkit);
  store Globals.set_tools tools.

(* model = ModelFactory.create(model_platform=ModelPlatformType.GEMINI,
     model_type="gemini-2.5-flash", api_key=os.getenv("GOOGLE_API_KEY"),
     model_config_dict={"temperature": 0.0, "max_tokens": 4096}) *)
Definition assign_model : M unit :=
  load "ModelFactory" Globals.ModelFactory;;
  load "ModelPlatformType" Globals.ModelPlatformType;;
  load "os" Globals.os;;
  google_api_key ← os_getenv "GOOGLE_API_KEY";
  let kwargs := model_kwargs google_api_key in
  call (λ tr, w_ModelFactory_create w tr kwargs) (E_ModelFactory_create kwargs);;
  store Globals.set_model kwargs.

(* sys_msg = BaseMessage.make_assistant_message(role_name=agent_name,
     content=system_prompt) *)
Definition assign_sys_msg : M unit :=
  load "BaseMessage" Globals.BaseMessage;;
  agent_name ← load "agent_name" Globals.agent_name;
  system_prompt ← load "system_prompt" Globals.system_prompt;
  let kwargs := {| BaseMessage.role_name := agent_name;
                   BaseMessage.content := system_prompt |} in
  call (λ tr, w_make_assistant_message w tr kwargs)
       (E_make_assistant_message kwargs);;
  store Globals.set_sys_msg kwargs.

(* agent = ChatAgent(model=model, system_message=sys_msg, tools=tools,
     memory=None) *)
Definition assign_agent : M unit :=
  load "ChatAgent" Globals.ChatAgent;;
  model ← load "model" Globals.model;
  sys_msg ← load "sys_msg" Globals.sys_msg;
  tools ← load "tools" Globals.tools;
  let kwargs := {| ChatAgent.model := model;
                   ChatAgent.system_message := sys_msg;
                   ChatAgent.tools := tools;
                   ChatAgent.memory := None |} in
  call (λ tr, w_ChatAgent w tr kwargs) (E_ChatAgent kwargs);;
  store Globals.set_agent kwargs.

Definition cell_834b52ff : list (M unit) :=
  [ import_ChatAgent; import_BaseMessage; import_ModelFactory;
    import_ModelPlatformType;
    assign_tools; assign_model; assign_sys_msg; assign_agent ].

(** Cell 51551c2e, for a task tuple [ts]. *)
(* tasks = ( ... ) *)
Definition assign_tasks (ts : list string) : M unit :=
  store Globals.set_tasks ts.

(* response = await agent.astep(task) *)
Definition assign_response : M unit :=
  agent ← load "agent" Globals.agent;
  task ← load "task" Globals.task;
  response ← call (λ tr, w_astep w tr agent task) (E_astep agent task);
  store Globals.set_response response.

(* print(response.msg.content) *)
Definition print_response : M unit :=
  response ← load "response" Globals.response;
  print (BaseMessage.content (ChatAgentResponse.msg response)).

Definition loop_body : list (M unit) := [ assign_response; print_response ].

(* for task in tasks: ... *)
Definition for_task_in_tasks : M unit :=
  tasks ← load "tasks" Globals.tasks;
  for_each tasks (λ t, store Globals.set_task t;; exec loop_body).

Definition cell_51551c2e (ts : list string) : list (M unit) :=
  [ assign_tasks ts; for_task_in_tasks ].

(** Cell 0b7ddd82. *)
(* await mcp_toolkit.disconnect() *)
Definition await_disconnect : M unit :=
  mcp_toolkit ← load "mcp_toolkit" Globals.mcp_toolkit;
  call (λ tr, w_disconnect w tr mcp_toolkit) (E_disconnect mcp_toolkit).

Definition cell_0b7ddd82 : list (M unit) := [ await_disconnect ].

(** The cells before the task cell, in notebook order. *)
Definition startup : list (M unit) :=
  cell_3d4c4add ++ cell_3e484b89 ++ cell_df8125d7 ++ cell_5b360b6a
    ++ cell_834b52ff.

(** The same statements in three stretches: up to the import of the
    toolkit class, up to the last import, and the rest.  The process
    environment is read at the start of the second stretch and in the
    third one. *)
Definition startup_1 : list (M unit) :=
  [ pip_install; import_os; import_load_dotenv;
    assign_agent_name; assign_system_prompt; import_MCPToolkit ].

Definition startup_2 : list (M unit) :=
  [ assign_mcp_config; assign_mcp_toolkit; await_connect;
    import_ChatAgent; import_BaseMessage; import_ModelFactory;
    import_ModelPlatformType ].

Definition startup_3 : list (M unit) :=
  [ assign_tools; assign_model; assign_sys_msg; assign_agent ].

(** The whole notebook run top to bottom, for a task tuple [ts]. *)
Definition notebook_with (ts : list string) : M unit :=
  exec (startup ++ cell_51551c2e ts ++ cell_0b7ddd82).

(** The notebook as written. *)
Definition notebook : M unit := notebook_with notebook_tasks.

(** The statements the run executes one after the other, the loop
    written out for each task. *)
Definition steps (ts : list string) : list (M unit) :=
  startup ++ [ assign_tasks ts ]
    ++ flat_map (λ t, store Globals.set_task t :: loop_body) ts
    ++ cell_0b7ddd82.

(** A run of the whole notebook from a fresh kernel. *)
Definition run (ts : list string) (env file : gmap string string)
    : Outcome unit * Machine :=
  notebook_with ts (boot env file).

(** The log, the outcome and the final machine of such a run. *)
Definition log_of (ts : list string) (env file : gmap string string)
    : list Event :=
  trace (run ts env file).2.

Definition outcome_of (ts : list string) (env file : gmap string string)
    : Outcome unit :=
  (run ts env file).1.

Definition final (ts : list string) (env file : gmap string string)
    : Machine :=
  (run ts env file).2.

End Notebook.

(** ** Reading the log *)

Definition result_raised {A} (r : Outcome A) : option Exception :=
  match r with Ok _ => None | Raise e => Some e end.

(** The exception a logged call ended with, if it raised. *)
Definition raised (ev : Event) : option Exception :=
  match ev with
  | E_getenv _ _ | E_load_dotenv | E_print _ => None
  | E_import _ _ r | E_MCPToolkit _ r | E_connect _ r | E_ModelFactory_create _ r
  | E_make_assistant_message _ r | E_ChatAgent _ r | E_disconnect _ r =>
      result_raised r
  | E_get_tools _ r => result_raised r
  | E_astep _ _ r => result_raised r
  end.

(** The same call, ending with exception [e]. *)
Definition fail_with (e : Exception) (ev : Event) : Event :=
  match ev with
  | E_getenv _ _ | E_load_dotenv | E_print _ => ev
  | E_import module name _ => E_import module name (Raise e)
  | E_MCPToolkit c _ => E_MCPToolkit c (Raise e)
  | E_connect s _ => E_connect s (Raise e)
  | E_get_tools s _ => E_get_tools s (Raise e)
  | E_ModelFactory_create k _ => E_ModelFactory_create k (Raise e)
  | E_make_assistant_message k _ => E_make_assistant_message k (Raise e)
  | E_ChatAgent k _ => E_ChatAgent k (Raise e)
  | E_astep s t _ => E_astep s t (Raise e)
  | E_disconnect s _ => E_disconnect s (Raise e)
  end.

(** Calls into library code, the ones that may raise: the imports and
    the calls to a collaborator. *)
Definition collaborator_call (ev : Event) : bool :=
  match ev with
  | E_getenv _ _ | E_load_dotenv | E_print _ => false
  | _ => true
  end.

(** Names passed to [os.getenv], in call order. *)
Definition env_reads (tr : list Event) : list string :=
  omap (λ ev, match ev with E_getenv k _ => Some k | _ => None end) tr.

(** Prompts passed to [agent.astep], in call order. *)
Definition astep_tasks (tr : list Event) : list string :=
  omap (λ ev, match ev with E_astep _ t _ => Some t | _ => None end) tr.

(** Responses that [agent.astep] returned, in call order. *)
Definition responses (tr : list Event) : list ChatAgentResponse.t :=
  omap (λ ev, match ev with E_astep _ _ (Ok r) => Some r | _ => None end) tr.

(** Prompts whose [agent.astep] call returned, in call order. *)
Definition returned_tasks (tr : list Event) : list string :=
  omap (λ ev, match ev with E_astep _ t (Ok _) => Some t | _ => None end) tr.

(** Texts passed to [print], in call order. *)
Definition printed (tr : list Event) : list string :=
  omap (λ ev, match ev with E_print s => Some s | _ => None end) tr.

(** Config dicts passed to the [MCPToolkit] constructor. *)
Definition toolkit_configs (tr : list Event) : list McpConfig :=
  omap (λ ev, match ev with E_MCPToolkit c _ => Some c | _ => None end) tr.

(** Toolkits on which [connect] returned. *)
Definition connections (tr : list Event) : list MCPToolkit.t :=
  omap (λ ev, match ev with E_connect s (Ok _) => Some s | _ => None end) tr.

(** Toolkits on which [disconnect] was called. *)
Definition disconnects (tr : list Event) : list MCPToolkit.t :=
  omap (λ ev, match ev with E_disconnect s _ => Some s | _ => None end) tr.

(** What [print] puts on standard output for a list of texts. *)
Fixpoint lines (texts : list string) : string :=
  match texts with
  | [] => EmptyString
  | s :: rest => s +:+ nl +:+ lines rest
  end.

(** Number of line breaks in a string. *)
Fixpoint count_nl (s : string) : nat :=
  match s with
  | EmptyString => 0
  | String c rest =>
      (if Ascii.eqb c "010"%char then 1 else 0) + count_nl rest
  end.

(** The text of a response: [response.msg.content]. *)
Definition text_of (r : ChatAgentResponse.t) : string :=
  BaseMessage.content (ChatAgentResponse.msg r).

(** ** The log of a run that meets no exception

    The objects the notebook builds, as functions of the process
    environment at the time of the read and of the tool list the
    toolkit returned. *)
Definition the_toolkit (env : gmap string string) : MCPToolkit.t :=
  {| MCPToolkit.config_dict := mcp_config_literal (env !! "ACI_API_KEY") |}.

Definition the_sys_msg : BaseMessage.t :=
  {| BaseMessage.role_name := "ObjectDetectionAgent";
     BaseMessage.content := system_prompt_literal |}.

Definition the_agent (env : gmap string string) (tools : list FunctionTool)
    : ChatAgent.t :=
  {| ChatAgent.model := model_kwargs (env !! "GOOGLE_API_KEY");
     ChatAgent.system_message := the_sys_msg;
     ChatAgent.tools := tools;
     ChatAgent.memory := None |}.

(** The log of the startup cells: [env1] is the process environment
    when [mcp_config] is built, [env2] the one when the model is
    created. *)
Definition startup_events (env1 env2 : gmap string string)
    (tools : list FunctionTool) : list Event :=
  [ E_import "dotenv" "load_dotenv" (Ok ());
    E_import "camel.toolkits" "MCPToolkit" (Ok ());
    E_getenv "ACI_API_KEY" (env1 !! "ACI_API_KEY");
    E_MCPToolkit (mcp_config_literal (env1 !! "ACI_API_KEY")) (Ok ());
    E_connect (the_toolkit env1) (Ok ());
    E_import "camel.agents" "ChatAgent" (Ok ());
    E_import "camel.messages" "BaseMessage" (Ok ());
    E_import "camel.models" "ModelFactory" (Ok ());
    E_import "camel.types" "ModelPlatformType" (Ok ());
    E_get_tools (the_toolkit env1) (Ok tools);
    E_getenv "GOOGLE_API_KEY" (env2 !! "GOOGLE_API_KEY");
    E_ModelFactory_create (model_kwargs (env2 !! "GOOGLE_API_KEY")) (Ok ());
    E_make_assistant_message the_sys_msg (Ok ());
    E_ChatAgent (the_agent env2 tools) (Ok ()) ].

(** One loop iteration that returned: the call, then the print. *)
Definition iteration (a : ChatAgent.t) (z : string * ChatAgentResponse.t)
    : list Event :=
  [ E_astep a z.1 (Ok z.2); E_print (text_of z.2) ].

(** The iterations for a list of prompts paired with their responses. *)
Definition loop_events (a : ChatAgent.t)
    (zs : list (string * ChatAgentResponse.t)) : list Event :=
  flat_map (iteration a) zs.

(** The three ways a run can go: an exception during startup, an
    exception from the agent inside the loop, or every statement up to
    and including [disconnect] executed.  [zs] pairs the prompts that
    were answered with their responses. *)
Inductive Shape (env1 env2 : gmap string string) (ts : list string)
    : list Event → Outcome unit → Prop :=
| shape_startup_raised k ev tools e :
    startup_events env1 env2 tools !! k = Some ev →
    collaborator_call ev = true →
    Shape env1 env2 ts
          (take k (startup_events env1 env2 tools) ++ [fail_with e ev])
          (Raise e)
| shape_astep_raised tools zs t rest e :
    ts = zs.*1 ++ t :: rest →
    Shape env1 env2 ts
          (startup_events env1 env2 tools
             ++ loop_events (the_agent env2 tools) zs
             ++ [E_astep (the_agent env2 tools) t (Raise e)])
          (Raise e)
| shape_completed tools zs r :
    ts = zs.*1 →
    Shape env1 env2 ts
          (startup_events env1 env2 tools
             ++ loop_events (the_agent env2 tools) zs
             ++ [E_disconnect (the_toolkit env1) r])
          r.

(** ** Mock collaborators and environments *)

Definition reply (text : string) : ChatAgentResponse.t :=
  {| ChatAgentResponse.msg :=
       {| BaseMessage.role_name := "ObjectDetectionAgent";
          BaseMessage.content := text |} |}.

(** A world in which every import returns and leaves the process
    environment as it is, and every call but [astep] returns. *)
Definition mock_world
    (agent : list Event → string → Outcome ChatAgentResponse.t) : World :=
  {| w_import := λ _ _ _ env _, (Ok (), env);
     w_MCPToolkit := λ _ _, Ok ();
     w_connect := λ _ _, Ok ();
     w_get_tools := λ _ _, Ok [ {| tool_name := "REPLICATE__RUN" |} ];
     w_ModelFactory_create := λ _ _, Ok ();
     w_make_assistant_message := λ _ _, Ok ();
     w_ChatAgent := λ _ _, Ok ();
     w_astep := λ tr _ t, agent tr t;
     w_disconnect := λ _ _, Ok () |}.

(** A mock agent that always answers with the same text. *)
Definition constant_agent (text : string)
    : list Event → string → Outcome ChatAgentResponse.t :=
  λ _ _, Ok (reply text).

(** A response text that spans two lines. *)
Definition two_line_text : string :=
  "1 car found" +:+ nl +:+ "| car | 0.97 | [12, 40, 310, 220] |".

(** A mock agent that echoes the prompt and raises on its second call. *)
Definition raises_on_second
    : list Event → string → Outcome ChatAgentResponse.t :=
  λ tr t, if Nat.eqb (length (astep_tasks tr)) 1
          then Raise (CollaboratorError "agent failed")
          else Ok (reply t).

(** A world whose connection attempt raises. *)
Definition unreachable_world : World :=
  {| w_import := λ _ _ _ env _, (Ok (), env);
     w_MCPToolkit := λ _ _, Ok ();
     w_connect := λ _ _, Raise (CollaboratorError "connection refused");
     w_get_tools := λ _ _, Ok [];
     w_ModelFactory_create := λ _ _, Ok ();
     w_make_assistant_message := λ _ _, Ok ();
     w_ChatAgent := λ _ _, Ok ();
     w_astep := λ _ _ t, Ok (reply t);
     w_disconnect := λ _ _, Ok () |}.

(** A world whose [camel] package loads the [.env] file when it is
    first imported, the way [load_dotenv] does: a key of the file that
    the process environment does not have yet is added to it. *)
Definition dotenv_loading_world : World :=
  {| w_import := λ _ module _ env file,
       (Ok (), if String.eqb module "camel.toolkits" then env ∪ file else env);
     w_MCPToolkit := λ _ _, Ok ();
     w_connect := λ _ _, Ok ();
     w_get_tools := λ _ _, Ok [ {| tool_name := "REPLICATE__RUN" |} ];
     w_ModelFactory_create := λ _ _, Ok ();
     w_make_assistant_message := λ _ _, Ok ();
     w_ChatAgent := λ _ _, Ok ();
     w_astep := λ _ _ t, Ok (reply t);
     w_disconnect := λ _ _, Ok () |}.

(** A world in which the package [camel] is not installed. *)
Definition missing_package_world : World :=
  {| w_import := λ _ module _ env _,
       (if String.prefix "camel" module then Raise (ImportError module)
        else Ok (), env);
     w_MCPToolkit := λ _ _, Ok ();
     w_connect := λ _ _, Ok ();
     w_get_tools := λ _ _, Ok [];
     w_ModelFactory_create := λ _ _, Ok ();
     w_make_assistant_message := λ _ _, Ok ();
     w_ChatAgent := λ _ _, Ok ();
     w_astep := λ _ _ t, Ok (reply t);
     w_disconnect := λ _ _, Ok () |}.

(** The four key names the notebook's setup note asks for in [.env]. *)
Definition documented_keys : list string :=
  [ "ACI_API_KEY"; "LINKED_ACCOUNT_OWNER_ID"; "GOOGLE_API_KEY";
    "REPLICATE_API_TOKEN" ].

(** A process environment, or a [.env] file, with all four keys set. *)
Definition full_env : gmap string string :=
  {[ "ACI_API_KEY" := "aci-key";
     "LINKED_ACCOUNT_OWNER_ID" := "alice";
     "GOOGLE_API_KEY" := "google-key";
     "REPLICATE_API_TOKEN" := "replicate-token" ]}.

(** ** Program points and invariants *)

(** The machine after the first [n] statements of a run from a fresh
    kernel (or after as many of them as ran before an exception). *)
Definition after (w : World) (ts : list string) (env file : gmap string string)
    (n : nat) : Machine :=
  (exec (take n (steps w ts)) (boot env file)).2.

(** The first [n] statements of the run returned, so the run gets to
    the statement after them. *)
Definition reaches (w : World) (ts : list string)
    (env file : gmap string string) (n : nat) : bool :=
  match (exec (take n (steps w ts)) (boot env file)).1 with
  | Ok _ => true
  | Raise _ => false
  end.

(** The process environment when [mcp_config] is built, after the
    first six statements, and when the model is created, after the
    first thirteen (the thirteenth is the last import). *)
Definition config_environ (w : World) (ts : list string)
    (env file : gmap string string) : gmap string string :=
  environ (after w ts env file 6).

Definition model_environ (w : World) (ts : list string)
    (env file : gmap string string) : gmap string string :=
  environ (after w ts env file 13).


(** The imports of a world leave the process environment as it is. *)
Definition imports_keep_environ (w : World) : Prop :=
  ∀ tr module name env file, (w_import w tr module name env file).2 = env.

(** A computation preserves [P] when [P] survives it, raised or not. *)
Definition preserves {A} (P : Machine → Prop) (c : M A) : Prop :=
  ∀ m, P m → P (c m).2.

(** The [.env] file is as at boot, and standard output holds what
    [print] was called with, nothing else. *)
Definition quiet (file : gmap string string) (m : Machine) : Prop :=
  dotenv_file m = file ∧ stdout m = lines (printed (trace m)).

(** The process environment is [env]. *)
Definition environ_is (env : gmap string string) (m : Machine) : Prop :=
  environ m = env.

(** The global [mcp_config] is bound to [c]. *)
Definition config_bound (c : McpConfig) (m : Machine) : Prop :=
  Globals.mcp_config (globals m) = Some c.

(** The global [system_prompt] is bound to [s]. *)
Definition prompt_bound (s : string) (m : Machine) : Prop :=
  Globals.system_prompt (globals m) = Some s.

(** The ["env"] dict of the ["aci_apps"] server of a config dict. *)
Definition server_env (c : McpConfig) : gmap string (option string) :=
  match c !! "mcpServers" ≫= (λ servers, servers !! "aci_apps") with
  | Some server => env server
  | None => ∅
  end.

(** The toolkit a logged call was made on. *)
Definition toolkit_of (ev : Event) : option MCPToolkit.t :=
  match ev with
  | E_connect s _ | E_get_tools s _ | E_disconnect s _ => Some s
  | _ => None
  end.

(** The system message a logged call carries. *)
Definition system_message_of (ev : Event) : option BaseMessage.t :=
  match ev with
  | E_make_assistant_message kwargs _ => Some kwargs
  | E_ChatAgent kwargs _ => Some (ChatAgent.system_message kwargs)
  | E_astep self _ _ => Some (ChatAgent.system_message self)
  | _ => None
  end.

(** ** Predicates on logs *)

Definition is_astep (ev : Event) : bool :=
  match ev with E_astep _ _ _ => true | _ => false end.

Definition is_disconnect (ev : Event) : bool :=
  match ev with E_disconnect _ _ => true | _ => false end.


(** No import and no call made before teardown raised: the only event
    of the log that may have raised is [disconnect]. *)
Definition returns_before_teardown (tr : list Event) : bool :=
  forallb (λ ev, match raised ev with
                 | None => true
                 | Some _ => is_disconnect ev
                 end) tr.

(** What a logged call may be, as far as credentials go, in a run in
    which the process environment is [env1] when [mcp_config] is built
    and [env2] when the model is created: [os.getenv] is called for one
    of two names and answered from the environment of that moment, the
    toolkit gets the value of [ACI_API_KEY] in its config dict, the
    model factory the value of [GOOGLE_API_KEY], and [load_dotenv] is
    not called. *)
Definition getenv_ok (env1 env2 : gmap string string) (ev : Event) : Prop :=
  match ev with
  | E_getenv k v =>
      (k = "ACI_API_KEY" ∧ v = env1 !! k)
      ∨ (k = "GOOGLE_API_KEY" ∧ v = env2 !! k)
  | E_load_dotenv => False
  | E_MCPToolkit c _ => c = mcp_config_literal (env1 !! "ACI_API_KEY")
  | E_ModelFactory_create kwargs _ =>
      Model.api_key kwargs = env2 !! "GOOGLE_API_KEY"
  | _ => True
  end.

(** The global [agent] is not bound yet. *)
Definition agent_unbound (m : Machine) : Prop :=
  Globals.agent (globals m) = None.

(** ** Further predicates on events and machines *)

Definition is_connect (ev : Event) : bool :=
  match ev with E_connect _ _ => true | _ => false end.

(** The loop variables [task] and [response] are in step with the log:
    each holds the last prompt passed to [astep], respectively the last
    response it returned, and is unbound when there is none. *)
Definition loop_vars (m : Machine) : Prop :=
  Globals.task (globals m) = last (astep_tasks (trace m))
  ∧ Globals.response (globals m) = last (responses (trace m)).

(** The loop variables with the agent bound to [a]. *)
Definition in_loop (a : ChatAgent.t) (m : Machine) : Prop :=
  Globals.agent (globals m) = Some a ∧ loop_vars m.

Definition is_import (ev : Event) : bool :=
  match ev with E_import _ _ _ => true | _ => false end.

(** [get_tools] returned in this log: the tool list was obtained. *)
Definition tools_obtained (tr : list Event) : bool :=
  existsb (λ ev, match ev with E_get_tools _ (Ok _) => true | _ => false end)
          tr.

(** The four names the agent cell imports are bound in [g'], and the
    other names are as in [g]. *)
Definition agent_cell_imports_bound (g g' : Globals.t) : Prop :=
  g' = Globals.set_ModelPlatformType
         (py_attribute "camel.types" "ModelPlatformType")
         (Globals.set_ModelFactory (py_attribute "camel.models" "ModelFactory")
            (Globals.set_BaseMessage
               (py_attribute "camel.messages" "BaseMessage")
               (Globals.set_ChatAgent (py_attribute "camel.agents" "ChatAgent")
                  g))).


(** * Properties *)

Arguments mcp_config_literal : simpl never.
Arguments model_kwargs : simpl never.
Arguments system_prompt_literal : simpl never.

(** ** Running statements *)

Ltac unfold_stmts :=
  unfold startup, cell_3d4c4add, cell_3e484b89, cell_df8125d7, cell_5b360b6a,
    cell_834b52ff, cell_51551c2e, cell_0b7ddd82, loop_body,
    pip_install, import_os, import_load_dotenv, import_MCPToolkit,
    import_ChatAgent, import_BaseMessage, import_ModelFactory,
    import_ModelPlatformType, assign_agent_name, assign_system_prompt,
    assign_mcp_config, assign_mcp_toolkit, await_connect, assign_tools,
    assign_model, assign_sys_msg, assign_agent, assign_tasks, assign_response,
    print_response, for_task_in_tasks, await_disconnect.

(** Reduces reads of the machine after it was updated. *)
Ltac machine_simpl :=
  cbn [log update_globals write_stdout update_environ boot
       environ dotenv_file globals stdout trace fst snd
       Globals.os Globals.load_dotenv Globals.agent_name
       Globals.system_prompt Globals.MCPToolkit Globals.mcp_config
       Globals.mcp_toolkit Globals.ChatAgent Globals.BaseMessage
       Globals.ModelFactory Globals.ModelPlatformType Globals.tools
       Globals.model Globals.sys_msg Globals.agent Globals.tasks
       Globals.task Globals.response
       Globals.set_os Globals.set_load_dotenv Globals.set_agent_name
       Globals.set_system_prompt Globals.set_MCPToolkit
       Globals.set_mcp_config Globals.set_mcp_toolkit Globals.set_ChatAgent
       Globals.set_BaseMessage Globals.set_ModelFactory
       Globals.set_ModelPlatformType Globals.set_tools Globals.set_model
       Globals.set_sys_msg Globals.set_agent Globals.set_tasks
       Globals.set_task Globals.set_response Globals.empty].

Tactic Notation "machine_simpl" "in" hyp(H) :=
  cbn [log update_globals write_stdout update_environ boot
       environ dotenv_file globals stdout trace fst snd
       Globals.os Globals.load_dotenv Globals.agent_name
       Globals.system_prompt Globals.MCPToolkit Globals.mcp_config
       Globals.mcp_toolkit Globals.ChatAgent Globals.BaseMessage
       Globals.ModelFactory Globals.ModelPlatformType Globals.tools
       Globals.model Globals.sys_msg Globals.agent Globals.tasks
       Globals.task Globals.response
       Globals.set_os Globals.set_load_dotenv Globals.set_agent_name
       Globals.set_system_prompt Globals.set_MCPToolkit
       Globals.set_mcp_config Globals.set_mcp_toolkit Globals.set_ChatAgent
       Globals.set_BaseMessage Globals.set_ModelFactory
       Globals.set_ModelPlatformType Globals.set_tools Globals.set_model
       Globals.set_sys_msg Globals.set_agent Globals.set_tasks
       Globals.set_task Globals.set_response Globals.empty] in H.

Ltac run_step := repeat progress (
  unfold mbind, M_bind, mret, M_ret, load, store, call, os_getenv, print,
    from_import;
  cbn [exec for_each app]; machine_simpl ).

(** Case analysis on whatever the next statement is waiting for: a
    global being bound, or the answer of a collaborator. *)
Ltac next_case :=
  match goal with
  | |- context [match ?x with Ok _ => _ | Raise _ => _ end] =>
      destruct x eqn:?
  | |- context [match ?x with Some _ => _ | None => _ end] =>
      destruct x eqn:?
  end; run_step.

(** A global is bound in the machine at hand. *)
Ltac bound := machine_simpl; first [eassumption | reflexivity].

Lemma bind_run {A B} (c : M A) (k : A → M B) m :
  (c ≫= k) m =
  match c m with (Ok a, m') => k a m' | (Raise e, m') => (Raise e, m') end.
Proof. reflexivity. Qed.

Lemma exec_app (ss1 ss2 : list (M unit)) m :
  exec (ss1 ++ ss2) m =
  match exec ss1 m with
  | (Ok _, m') => exec ss2 m'
  | (Raise e, m') => (Raise e, m')
  end.
Proof.
  revert m. induction ss1 as [|s ss1 IH]; intros m; [reflexivity|].
  cbn [app exec]. rewrite !bind_run.
  destruct (s m) as [[[]|e] m1]; [apply IH|reflexivity].
Qed.

Lemma for_each_unrolled {A} (xs : list A) (s : A → M unit) (body : list (M unit))
    (rest : list (M unit)) m :
  exec (flat_map (λ x, s x :: body) xs ++ rest) m =
  match for_each xs (λ x, s x;; exec body) m with
  | (Ok _, m') => exec rest m'
  | (Raise e, m') => (Raise e, m')
  end.
Proof.
  revert m. induction xs as [|x xs IH]; intros m; [reflexivity|].
  cbn [flat_map for_each]. rewrite <- app_assoc. cbn [app exec].
  rewrite !bind_run.
  destruct (s x m) as [[[]|e] m1]; [|reflexivity].
  rewrite exec_app. destruct (exec body m1) as [[[]|e] m2]; [apply IH|reflexivity].
Qed.

Lemma store_run {A} (setter : A → Globals.t → Globals.t) v m :
  store setter v m = (Ok (), update_globals (setter v) m).
Proof. reflexivity. Qed.

Lemma load_run {A} name (field : Globals.t → option A) m v :
  field (globals m) = Some v → load name field m = (Ok v, m).
Proof. intros H. unfold load. by rewrite H. Qed.

(** The run is the execution of [steps], one statement after the other. *)
Lemma notebook_with_steps w ts m :
  notebook_with w ts m = exec (steps w ts) m.
Proof.
  unfold notebook_with, steps.
  rewrite !(exec_app (startup w)).
  destruct (exec (startup w) m) as [[[]|e] m1]; [|reflexivity].
  unfold cell_51551c2e, assign_tasks. cbn [app exec]. rewrite !bind_run, !store_run.
  rewrite for_each_unrolled.
  unfold for_task_in_tasks. rewrite !bind_run. unfold load.
  cbn [update_globals globals Globals.tasks Globals.set_tasks].
  destruct (for_each _ _ _) as [[[]|e] m2]; reflexivity.
Qed.

Lemma startup_split w : startup w = startup_1 w ++ startup_2 w ++ startup_3 w.
Proof. reflexivity. Qed.

(** ** What each statement does *)

Lemma exec_cons (s : M unit) ss m :
  exec (s :: ss) m =
  match s m with
  | (Ok _, m') => exec ss m'
  | (Raise e, m') => (Raise e, m')
  end.
Proof. reflexivity. Qed.

Lemma from_import_run oracle module name setter m :
  from_import oracle module name setter m =
  match oracle (trace m) (environ m) (dotenv_file m) with
  | (Ok _, env') =>
      (Ok (), update_globals (setter (py_attribute module name))
                (log (E_import module name (Ok ()))
                   (update_environ (λ _, env') m)))
  | (Raise e, env') =>
      (Raise e, log (E_import module name (Raise e))
                  (update_environ (λ _, env') m))
  end.
Proof. unfold from_import. by destruct (oracle _ _ _) as [[[]|e] env']. Qed.

Lemma assign_mcp_config_run m o :
  Globals.os (globals m) = Some o →
  assign_mcp_config m =
  (Ok (), update_globals
            (Globals.set_mcp_config
               (mcp_config_literal (environ m !! "ACI_API_KEY")))
            (log (E_getenv "ACI_API_KEY" (environ m !! "ACI_API_KEY")) m)).
Proof.
  intros H. unfold assign_mcp_config. rewrite bind_run.
  by rewrite (load_run _ _ _ _ H).
Qed.

Lemma assign_mcp_toolkit_run w m i c :
  Globals.MCPToolkit (globals m) = Some i →
  Globals.mcp_config (globals m) = Some c →
  assign_mcp_toolkit w m =
  match w_MCPToolkit w (trace m) c with
  | Ok _ => (Ok (), update_globals
                      (Globals.set_mcp_toolkit {| MCPToolkit.config_dict := c |})
                      (log (E_MCPToolkit c (Ok ())) m))
  | Raise e => (Raise e, log (E_MCPToolkit c (Raise e)) m)
  end.
Proof.
  intros Hi H. unfold assign_mcp_toolkit.
  rewrite bind_run, (load_run _ _ _ _ Hi), bind_run, (load_run _ _ _ _ H).
  rewrite bind_run. unfold call.
  by destruct (w_MCPToolkit w (trace m) c) as [[]|e].
Qed.

Lemma await_connect_run w m s :
  Globals.mcp_toolkit (globals m) = Some s →
  await_connect w m =
  (w_connect w (trace m) s, log (E_connect s (w_connect w (trace m) s)) m).
Proof.
  intros H. unfold await_connect. by rewrite bind_run, (load_run _ _ _ _ H).
Qed.

Lemma assign_tools_run w m s :
  Globals.mcp_toolkit (globals m) = Some s →
  assign_tools w m =
  match w_get_tools w (trace m) s with
  | Ok tools => (Ok (), update_globals (Globals.set_tools tools)
                          (log (E_get_tools s (Ok tools)) m))
  | Raise e => (Raise e, log (E_get_tools s (Raise e)) m)
  end.
Proof.
  intros H. unfold assign_tools. rewrite bind_run, (load_run _ _ _ _ H).
  rewrite bind_run. unfold call.
  by destruct (w_get_tools w (trace m) s) as [tools|e].
Qed.

Lemma assign_model_run w m i1 i2 i3 :
  Globals.ModelFactory (globals m) = Some i1 →
  Globals.ModelPlatformType (globals m) = Some i2 →
  Globals.os (globals m) = Some i3 →
  let key := environ m !! "GOOGLE_API_KEY" in
  let m1 := log (E_getenv "GOOGLE_API_KEY" key) m in
  assign_model w m =
  match w_ModelFactory_create w (trace m1) (model_kwargs key) with
  | Ok _ => (Ok (), update_globals (Globals.set_model (model_kwargs key))
                      (log (E_ModelFactory_create (model_kwargs key) (Ok ())) m1))
  | Raise e =>
      (Raise e, log (E_ModelFactory_create (model_kwargs key) (Raise e)) m1)
  end.
Proof.
  intros H1 H2 H3 key m1. unfold assign_model.
  rewrite bind_run, (load_run _ _ _ _ H1), bind_run, (load_run _ _ _ _ H2).
  rewrite bind_run, (load_run _ _ _ _ H3), bind_run. unfold os_getenv at 1.
  fold key. fold m1. rewrite bind_run. unfold call.
  by destruct (w_ModelFactory_create w (trace m1) (model_kwargs key)) as [[]|e].
Qed.

Lemma assign_sys_msg_run w m i name prompt :
  Globals.BaseMessage (globals m) = Some i →
  Globals.agent_name (globals m) = Some name →
  Globals.system_prompt (globals m) = Some prompt →
  let kwargs := {| BaseMessage.role_name := name;
                   BaseMessage.content := prompt |} in
  assign_sys_msg w m =
  match w_make_assistant_message w (trace m) kwargs with
  | Ok _ => (Ok (), update_globals (Globals.set_sys_msg kwargs)
                      (log (E_make_assistant_message kwargs (Ok ())) m))
  | Raise e => (Raise e, log (E_make_assistant_message kwargs (Raise e)) m)
  end.
Proof.
  intros Hi H1 H2 kwargs. unfold assign_sys_msg.
  rewrite bind_run, (load_run _ _ _ _ Hi), bind_run, (load_run _ _ _ _ H1).
  rewrite bind_run, (load_run _ _ _ _ H2), bind_run. unfold call.
  fold kwargs.
  by destruct (w_make_assistant_message w (trace m) kwargs) as [[]|e].
Qed.

Lemma assign_agent_run w m i mdl msg tools :
  Globals.ChatAgent (globals m) = Some i →
  Globals.model (globals m) = Some mdl →
  Globals.sys_msg (globals m) = Some msg →
  Globals.tools (globals m) = Some tools →
  let kwargs := {| ChatAgent.model := mdl; ChatAgent.system_message := msg;
                   ChatAgent.tools := tools; ChatAgent.memory := None |} in
  assign_agent w m =
  match w_ChatAgent w (trace m) kwargs with
  | Ok _ => (Ok (), update_globals (Globals.set_agent kwargs)
                      (log (E_ChatAgent kwargs (Ok ())) m))
  | Raise e => (Raise e, log (E_ChatAgent kwargs (Raise e)) m)
  end.
Proof.
  intros Hi H1 H2 H3 kwargs. unfold assign_agent.
  rewrite bind_run, (load_run _ _ _ _ Hi), bind_run, (load_run _ _ _ _ H1).
  rewrite bind_run, (load_run _ _ _ _ H2), bind_run, (load_run _ _ _ _ H3).
  rewrite bind_run. unfold call. fold kwargs.
  by destruct (w_ChatAgent w (trace m) kwargs) as [[]|e].
Qed.

Lemma assign_response_run w m a t :
  Globals.agent (globals m) = Some a →
  Globals.task (globals m) = Some t →
  assign_response w m =
  match w_astep w (trace m) a t with
  | Ok r => (Ok (), update_globals (Globals.set_response r)
                      (log (E_astep a t (Ok r)) m))
  | Raise e => (Raise e, log (E_astep a t (Raise e)) m)
  end.
Proof.
  intros H1 H2. unfold assign_response. rewrite bind_run. unfold load at 1.
  rewrite H1, bind_run. unfold load at 1. rewrite H2, bind_run. unfold call.
  by destruct (w_astep w (trace m) a t) as [r|e].
Qed.

Lemma print_response_run m r :
  Globals.response (globals m) = Some r →
  print_response m =
  (Ok (), log (E_print (text_of r)) (write_stdout (text_of r +:+ nl) m)).
Proof.
  intros H. unfold print_response. rewrite bind_run. unfold load at 1.
  by rewrite H.
Qed.

Lemma await_disconnect_run w m s :
  Globals.mcp_toolkit (globals m) = Some s →
  await_disconnect w m =
  (w_disconnect w (trace m) s,
   log (E_disconnect s (w_disconnect w (trace m) s)) m).
Proof.
  intros H. unfold await_disconnect. rewrite bind_run. unfold load at 1.
  by rewrite H.
Qed.

(** ** Sample runs *)

(** One task, every import and collaborator returning: the startup
    imports and calls, the agent invocation, the print, the disconnect. *)
Example single_task_run :
  run (mock_world (constant_agent "1 car found"))
      ["find all cars in image X"] ∅ ∅
  = (Ok (),
     {| environ := ∅; dotenv_file := ∅;
        globals :=
          {| Globals.os := Some (py_module "os");
             Globals.load_dotenv := Some (py_attribute "dotenv" "load_dotenv");
             Globals.agent_name := Some "ObjectDetectionAgent";
             Globals.system_prompt := Some system_prompt_literal;
             Globals.MCPToolkit :=
               Some (py_attribute "camel.toolkits" "MCPToolkit");
             Globals.mcp_config := Some (mcp_config_literal None);
             Globals.mcp_toolkit := Some (the_toolkit ∅);
             Globals.ChatAgent := Some (py_attribute "camel.agents" "ChatAgent");
             Globals.BaseMessage :=
               Some (py_attribute "camel.messages" "BaseMessage");
             Globals.ModelFactory :=
               Some (py_attribute "camel.models" "ModelFactory");
             Globals.ModelPlatformType :=
               Some (py_attribute "camel.types" "ModelPlatformType");
             Globals.tools := Some [ {| tool_name := "REPLICATE__RUN" |} ];
             Globals.model := Some (model_kwargs None);
             Globals.sys_msg := Some the_sys_msg;
             Globals.agent :=
               Some (the_agent ∅ [ {| tool_name := "REPLICATE__RUN" |} ]);
             Globals.tasks := Some ["find all cars in image X"];
             Globals.task := Some "find all cars in image X";
             Globals.response := Some (reply "1 car found") |};
        stdout := "1 car found" +:+ nl;
        trace :=
          startup_events ∅ ∅ [ {| tool_name := "REPLICATE__RUN" |} ]
            ++ [ E_astep (the_agent ∅ [ {| tool_name := "REPLICATE__RUN" |} ])
                         "find all cars in image X" (Ok (reply "1 car found"));
                 E_print "1 car found";
                 E_disconnect (the_toolkit ∅) (Ok ()) ] |}).
Proof. vm_compute. reflexivity. Qed.

(** The connection attempt raises: the run ends there, with the
    exception, and nothing after [connect] is called. *)
Example connection_refused_run :
  outcome_of unreachable_world notebook_tasks ∅ ∅
  = Raise (CollaboratorError "connection refused")
  ∧ log_of unreachable_world notebook_tasks ∅ ∅
    = [ E_import "dotenv" "load_dotenv" (Ok ());
        E_import "camel.toolkits" "MCPToolkit" (Ok ());
        E_getenv "ACI_API_KEY" None;
        E_MCPToolkit (mcp_config_literal None) (Ok ());
        E_connect (the_toolkit ∅)
                  (Raise (CollaboratorError "connection refused")) ]
  ∧ stdout (final unreachable_world notebook_tasks ∅ ∅) = EmptyString.
Proof. vm_compute. repeat split; reflexivity. Qed.

(** The package [camel] is missing: the run ends at the first import
    of it, before the environment is read and before any collaborator
    is called; the names bound so far stay bound. *)
Example missing_package_run :
  outcome_of missing_package_world notebook_tasks ∅ ∅
  = Raise (ImportError "camel.toolkits")
  ∧ log_of missing_package_world notebook_tasks ∅ ∅
    = [ E_import "dotenv" "load_dotenv" (Ok ());
        E_import "camel.toolkits" "MCPToolkit"
                 (Raise (ImportError "camel.toolkits")) ]
  ∧ Globals.system_prompt
      (globals (final missing_package_world notebook_tasks ∅ ∅))
    = Some system_prompt_literal
  ∧ Globals.mcp_config
      (globals (final missing_package_world notebook_tasks ∅ ∅))
    = None.
Proof. vm_compute. repeat split; reflexivity. Qed.

(** The package [camel] loads the [.env] file when it is imported: a
    key set in the file only is found by the read that follows. *)
Example dotenv_loaded_by_import_run :
  env_reads (log_of dotenv_loading_world notebook_tasks ∅ full_env)
  = ["ACI_API_KEY"; "GOOGLE_API_KEY"]
  ∧ toolkit_configs (log_of dotenv_loading_world notebook_tasks ∅ full_env)
    = [mcp_config_literal (Some "aci-key")]
  ∧ environ (final dotenv_loading_world notebook_tasks ∅ full_env)
      !! "GOOGLE_API_KEY" = Some "google-key".
Proof. repeat split; vm_compute; reflexivity. Qed.

(** ** The shape of a run *)

(** The first stretch of the startup cells: two names bound to string
    literals and three imports, two of which run library code. *)
Lemma startup_1_run w env file o m :
  exec (startup_1 w) (boot env file) = (o, m) →
  (o = Ok ()
   ∧ trace m = [ E_import "dotenv" "load_dotenv" (Ok ());
                 E_import "camel.toolkits" "MCPToolkit" (Ok ()) ]
   ∧ globals m
     = Globals.set_MCPToolkit (py_attribute "camel.toolkits" "MCPToolkit")
         (Globals.set_system_prompt system_prompt_literal
            (Globals.set_agent_name "ObjectDetectionAgent"
               (Globals.set_load_dotenv (py_attribute "dotenv" "load_dotenv")
                  (Globals.set_os (py_module "os") Globals.empty)))))
  ∨ (∃ e, o = Raise e
        ∧ trace m = [ E_import "dotenv" "load_dotenv" (Raise e) ])
  ∨ (∃ e, o = Raise e
        ∧ trace m = [ E_import "dotenv" "load_dotenv" (Ok ());
                      E_import "camel.toolkits" "MCPToolkit" (Raise e) ]).
Proof.
  unfold startup_1.
  rewrite exec_cons. change (pip_install ?m) with (Ok (), m). cbv beta iota.
  unfold import_os. rewrite exec_cons, store_run. cbv beta iota.
  unfold import_load_dotenv. rewrite exec_cons, from_import_run.
  destruct (w_import w _ _ _ _ _) as [[[]|e] e1]; cbv beta iota.
  2:{ intros [= <- <-]. right. left. by exists e. }
  unfold assign_agent_name. rewrite exec_cons, store_run. cbv beta iota.
  unfold assign_system_prompt. rewrite exec_cons, store_run. cbv beta iota.
  unfold import_MCPToolkit. rewrite exec_cons, from_import_run.
  destruct (w_import w _ _ _ _ _) as [[[]|e] e2]; cbv beta iota.
  2:{ intros [= <- <-]. right. right. by exists e. }
  intros [= <- <-]. left. done.
Qed.

(** The events of the second stretch, for the process environment
    [env1] it starts in. *)
Lemma startup_2_run w m o m' i1 i2 :
  Globals.os (globals m) = Some i1 →
  Globals.MCPToolkit (globals m) = Some i2 →
  exec (startup_2 w) m = (o, m') →
  (o = Ok ()
   ∧ trace m' = trace m ++ take 7 (drop 2 (startup_events (environ m) ∅ []))
   ∧ globals m'
     = Globals.set_ModelPlatformType
         (py_attribute "camel.types" "ModelPlatformType")
         (Globals.set_ModelFactory (py_attribute "camel.models" "ModelFactory")
            (Globals.set_BaseMessage
               (py_attribute "camel.messages" "BaseMessage")
               (Globals.set_ChatAgent (py_attribute "camel.agents" "ChatAgent")
                  (Globals.set_mcp_toolkit (the_toolkit (environ m))
                     (Globals.set_mcp_config
                        (mcp_config_literal (environ m !! "ACI_API_KEY"))
                        (globals m)))))))
  ∨ (∃ k ev e, o = Raise e ∧ 1 ≤ k < 7
        ∧ drop 2 (startup_events (environ m) ∅ []) !! k = Some ev
        ∧ trace m' = trace m
                       ++ take k (drop 2 (startup_events (environ m) ∅ []))
                       ++ [fail_with e ev]).
Proof.
  intros Hos Htk. unfold startup_2.
  rewrite exec_cons. erewrite assign_mcp_config_run by bound. cbv beta iota.
  rewrite exec_cons. erewrite assign_mcp_toolkit_run by bound.
  destruct (w_MCPToolkit w _ _) as [[]|e]; cbv beta iota.
  2:{ intros [= <- <-]. right. eexists 1, _, e.
      split; [done|]. split; [lia|]. split; [reflexivity|]. machine_simpl.
      by rewrite <- app_assoc. }
  rewrite exec_cons. erewrite await_connect_run by bound.
  destruct (w_connect w _ _) as [[]|e]; cbv beta iota.
  2:{ intros [= <- <-]. right. eexists 2, _, e.
      split; [done|]. split; [lia|]. split; [reflexivity|]. machine_simpl.
      by rewrite <- !app_assoc. }
  unfold import_ChatAgent. rewrite exec_cons, from_import_run.
  destruct (w_import w _ _ _ _ _) as [[[]|e] e3]; cbv beta iota.
  2:{ intros [= <- <-]. right. eexists 3, _, e.
      split; [done|]. split; [lia|]. split; [reflexivity|]. machine_simpl.
      by rewrite <- !app_assoc. }
  unfold import_BaseMessage. rewrite exec_cons, from_import_run.
  destruct (w_import w _ _ _ _ _) as [[[]|e] e4]; cbv beta iota.
  2:{ intros [= <- <-]. right. eexists 4, _, e.
      split; [done|]. split; [lia|]. split; [reflexivity|]. machine_simpl.
      by rewrite <- !app_assoc. }
  unfold import_ModelFactory. rewrite exec_cons, from_import_run.
  destruct (w_import w _ _ _ _ _) as [[[]|e] e5]; cbv beta iota.
  2:{ intros [= <- <-]. right. eexists 5, _, e.
      split; [done|]. split; [lia|]. split; [reflexivity|]. machine_simpl.
      by rewrite <- !app_assoc. }
  unfold import_ModelPlatformType. rewrite exec_cons, from_import_run.
  destruct (w_import w _ _ _ _ _) as [[[]|e] e6]; cbv beta iota.
  2:{ intros [= <- <-]. right. eexists 6, _, e.
      split; [done|]. split; [lia|]. split; [reflexivity|]. machine_simpl.
      by rewrite <- !app_assoc. }
  intros [= <- <-]. left. split; [done|]. machine_simpl.
  split; [by rewrite <- !app_assoc|done].
Qed.

(** The events of the third stretch, for the process environment
    [env2] it starts in and the toolkit [s] bound by then. *)
Lemma startup_3_run w m o m' s i1 i2 i3 i4 i5 env1 :
  Globals.mcp_toolkit (globals m) = Some s →
  s = the_toolkit env1 →
  Globals.ModelFactory (globals m) = Some i1 →
  Globals.ModelPlatformType (globals m) = Some i2 →
  Globals.os (globals m) = Some i3 →
  Globals.BaseMessage (globals m) = Some i4 →
  Globals.ChatAgent (globals m) = Some i5 →
  Globals.agent_name (globals m) = Some "ObjectDetectionAgent" →
  Globals.system_prompt (globals m) = Some system_prompt_literal →
  exec (startup_3 w) m = (o, m') →
  (∃ tools, o = Ok ()
     ∧ trace m' = trace m ++ drop 9 (startup_events env1 (environ m) tools)
     ∧ Globals.agent (globals m') = Some (the_agent (environ m) tools)
     ∧ Globals.mcp_toolkit (globals m') = Some s)
  ∨ (∃ k ev tools e, o = Raise e
        ∧ drop 9 (startup_events env1 (environ m) tools) !! k = Some ev
        ∧ collaborator_call ev = true
        ∧ trace m' = trace m
                       ++ take k (drop 9 (startup_events env1 (environ m) tools))
                       ++ [fail_with e ev]).
Proof.
  intros Hs -> H1 H2 H3 H4 H5 Hn Hp. unfold startup_3.
  rewrite exec_cons. erewrite assign_tools_run by bound.
  destruct (w_get_tools w _ _) as [tools|e]; cbv beta iota.
  2:{ intros [= <- <-]. right. eexists 0, _, (@nil FunctionTool), e.
      split; [done|]. split; [reflexivity|]. split; reflexivity. }
  rewrite exec_cons. erewrite assign_model_run by bound. cbv beta iota zeta.
  destruct (w_ModelFactory_create w _ _) as [[]|e]; cbv beta iota.
  2:{ intros [= <- <-]. right. eexists 2, _, tools, e.
      split; [done|]. split; [reflexivity|]. split; [reflexivity|]. machine_simpl.
      by rewrite <- !app_assoc. }
  rewrite exec_cons. erewrite assign_sys_msg_run by bound.
  destruct (w_make_assistant_message w _ _) as [[]|e]; cbv beta iota.
  2:{ intros [= <- <-]. right. eexists 3, _, tools, e.
      split; [done|]. split; [reflexivity|]. split; [reflexivity|]. machine_simpl.
      by rewrite <- !app_assoc. }
  rewrite exec_cons. erewrite assign_agent_run by bound.
  destruct (w_ChatAgent w _ _) as [[]|e]; cbv beta iota.
  2:{ intros [= <- <-]. right. eexists 4, _, tools, e.
      split; [done|]. split; [reflexivity|]. split; [reflexivity|]. machine_simpl.
      by rewrite <- !app_assoc. }
  intros [= <- <-]. left. exists tools. split; [done|]. machine_simpl.
  split; [by rewrite <- !app_assoc|]. split; [done|exact Hs].
Qed.

(** What the cells before the task cell leave behind.  [env1] is the
    process environment after the first stretch, [env2] the one after
    the second. *)
Lemma startup_run w env file o m :
  exec (startup w) (boot env file) = (o, m) →
  ∀ env1 env2,
  env1 = environ (exec (startup_1 w) (boot env file)).2 →
  env2 = environ (exec (startup_1 w ++ startup_2 w) (boot env file)).2 →
  (∃ tools, o = Ok () ∧ trace m = startup_events env1 env2 tools
      ∧ Globals.agent (globals m) = Some (the_agent env2 tools)
      ∧ Globals.mcp_toolkit (globals m) = Some (the_toolkit env1))
  ∨ (∃ k ev tools e, o = Raise e ∧ startup_events env1 env2 tools !! k = Some ev ∧
       collaborator_call ev = true ∧
       trace m = take k (startup_events env1 env2 tools) ++ [fail_with e ev]).
Proof.
  rewrite startup_split, exec_app. intros H env1 env2 -> ->. rewrite exec_app.
  destruct (exec (startup_1 w) (boot env file)) as [o1 m1] eqn:H1.
  destruct (startup_1_run _ _ _ _ _ H1)
    as [(-> & Htr1 & Hg1)|[(e & -> & Htr1)|(e & -> & Htr1)]].
  - cbn [snd]. rewrite exec_app in H.
    destruct (exec (startup_2 w) m1) as [o2 m2] eqn:H2.
    assert (Hos : Globals.os (globals m1) = Some (py_module "os"))
      by (by rewrite Hg1).
    assert (Htk : Globals.MCPToolkit (globals m1)
                  = Some (py_attribute "camel.toolkits" "MCPToolkit"))
      by (by rewrite Hg1).
    destruct (startup_2_run w m1 o2 m2 _ _ Hos Htk H2)
      as [(-> & Htr2 & Hg2)|(k & ev & e & -> & Hk & Hev & Htr2)].
    + cbn [snd]. rewrite Hg1 in Hg2.
      eapply (startup_3_run w m2 o m (the_toolkit (environ m1))
                _ _ _ _ _ (environ m1)) in H;
        try (rewrite Hg2; reflexivity); [|reflexivity].
      destruct H as [(tools & -> & Htr3 & Hag & Hto)
                    |(k & ev & tools & e & -> & Hev & Hc & Htr3)].
      * left. exists tools. rewrite Htr3, Htr2, Htr1. done.
      * right. exists (9 + k), ev, tools, e. rewrite Htr3, Htr2, Htr1.
        split; [done|]. split; [exact Hev|]. split; [exact Hc|].
        by rewrite <- app_assoc.
    + intros. right. injection H as <- <-.
      exists (2 + k), ev, (@nil FunctionTool), e. rewrite Htr2, Htr1.
      split; [done|].
      do 7 (destruct k as [|k]; [try lia; injection Hev as <-; by repeat split|]).
      lia.
  - injection H as <- <-. right.
    exists 0, (E_import "dotenv" "load_dotenv" (Ok ())), (@nil FunctionTool), e.
    by rewrite Htr1.
  - injection H as <- <-. right.
    exists 1, (E_import "camel.toolkits" "MCPToolkit" (Ok ())),
      (@nil FunctionTool), e.
    by rewrite Htr1.
Qed.

(** What the loop adds to the log: an [astep] call and a [print] for
    each task in turn, up to the first call that raises. *)
Lemma loop_run w a ts : ∀ m o m',
  Globals.agent (globals m) = Some a →
  for_each ts (λ t, store Globals.set_task t;; exec (loop_body w)) m = (o, m') →
  ∃ zs,
    Globals.mcp_toolkit (globals m') = Globals.mcp_toolkit (globals m) ∧
    ((o = Ok () ∧ ts = zs.*1 ∧ trace m' = trace m ++ loop_events a zs)
     ∨ (∃ t rest e, o = Raise e ∧ ts = zs.*1 ++ t :: rest
          ∧ trace m' = trace m ++ loop_events a zs
                         ++ [E_astep a t (Raise e)])).
Proof.
  induction ts as [|t ts IH]; intros m o m' Ha.
  - intros [= <- <-]. exists []. split; [done|]. left. cbn. by rewrite app_nil_r.
  - cbn [for_each]. rewrite !bind_run, store_run. unfold loop_body.
    rewrite exec_cons. erewrite assign_response_run by (exact Ha || reflexivity).
    destruct (w_astep w _ a t) as [resp|e]; cbv beta iota.
    + rewrite exec_cons. erewrite print_response_run by reflexivity.
      cbn [exec]. unfold mret at 1, M_ret at 1. intros Hrun.
      apply IH in Hrun as (zs & Htk & Hzs); [|exact Ha].
      exists ((t, resp) :: zs). split; [exact Htk|].
      cbn [fmap list_fmap loop_events flat_map iteration fst snd].
      destruct Hzs as [(Ho & Hts & Htr)|(t' & rest & e & Ho & Hts & Htr)].
      * left. rewrite Htr, Hts at 1. repeat split; [done|].
        cbn [trace log update_globals write_stdout]. by rewrite <- !app_assoc.
      * right. exists t', rest, e. rewrite Htr, Hts at 1. repeat split; [done|].
        cbn [trace log update_globals write_stdout]. by rewrite <- !app_assoc.
    + intros [= <- <-]. exists []. split; [done|]. right. by exists t, ts, e.
Qed.

Lemma notebook_shape w ts env file o m :
  notebook_with w ts (boot env file) = (o, m) →
  Shape (environ (exec (startup_1 w) (boot env file)).2)
        (environ (exec (startup_1 w ++ startup_2 w) (boot env file)).2)
        ts (trace m) o.
Proof.
  unfold notebook_with. rewrite exec_app.
  destruct (exec (startup w) (boot env file)) as [o1 m1] eqn:Hs.
  destruct (startup_run _ _ _ _ _ Hs _ _ eq_refl eq_refl)
    as [(tools & -> & Htr & Hag & Htk)|(k & ev & tools & e & -> & Hk & Hc & Htr)].
  2:{ intros [= <- <-]. rewrite Htr. by econstructor. }
  rewrite exec_app. unfold cell_51551c2e, assign_tasks, for_task_in_tasks.
  rewrite exec_cons, store_run. cbv beta iota.
  rewrite exec_cons, bind_run. unfold load at 1.
  cbn [update_globals globals Globals.tasks Globals.set_tasks].
  destruct (for_each ts _ _) as [o2 m2] eqn:Hl.
  eapply loop_run in Hl as (zs & Htk' & Hzs); [|exact Hag].
  cbn [update_globals globals trace Globals.mcp_toolkit Globals.set_tasks] in Htk', Hzs.
  destruct Hzs as [(-> & Hts & Htr2)|(t' & rest & e & -> & Hts & Htr2)].
  - cbn [exec]. unfold mret at 1, M_ret at 1. unfold cell_0b7ddd82.
    rewrite exec_cons. erewrite await_disconnect_run by (rewrite Htk'; exact Htk).
    destruct (w_disconnect w _ _) as [[]|e]; intros [= <- <-];
      cbn [trace log]; rewrite Htr2, Htr, <- app_assoc; by constructor.
  - intros [= <- <-]. rewrite Htr2, Htr. by econstructor.
Qed.

(** The program points at which the environment is read are the ends
    of the first two stretches of the startup statements. *)
Lemma config_environ_eq w ts env file :
  config_environ w ts env file
  = environ (exec (startup_1 w) (boot env file)).2.
Proof. reflexivity. Qed.

Lemma model_environ_eq w ts env file :
  model_environ w ts env file
  = environ (exec (startup_1 w ++ startup_2 w) (boot env file)).2.
Proof. reflexivity. Qed.

(** Every run of the notebook has one of the three shapes. *)
Lemma run_shape w ts env file :
  Shape (config_environ w ts env file) (model_environ w ts env file) ts
        (trace (run w ts env file).2) (run w ts env file).1.
Proof.
  rewrite config_environ_eq, model_environ_eq.
  unfold run. destruct (notebook_with _ _ _) as [o m] eqn:H.
  by apply notebook_shape in H.
Qed.

(** ** What statements leave alone *)

Lemma exec_preserves (P : Machine → Prop) ss :
  Forall (preserves P) ss → preserves P (exec ss).
Proof.
  induction 1 as [|s ss Hs _ IH]; intros m Hm; [exact Hm|].
  cbn [exec]. rewrite bind_run. specialize (Hs m Hm).
  destruct (s m) as [[[]|e] m1]; cbn [snd] in *; [by apply IH|done].
Qed.

Lemma for_each_preserves {A} (P : Machine → Prop) (xs : list A) body :
  (∀ x, preserves P (body x)) → preserves P (for_each xs body).
Proof.
  intros Hb. induction xs as [|x xs IH]; intros m Hm; [exact Hm|].
  cbn [for_each]. rewrite bind_run. specialize (Hb x m Hm).
  destruct (body x m) as [[[]|e] m1]; cbn [snd] in *; [by apply IH|done].
Qed.

Lemma string_app_assoc (a b c : string) : (a +:+ b) +:+ c = a +:+ b +:+ c.
Proof.
  induction a as [|x a IH]; [done|].
  change (String x ((a +:+ b) +:+ c) = String x (a +:+ b +:+ c)).
  by rewrite IH.
Qed.

Lemma string_app_nil_r (a : string) : a +:+ EmptyString = a.
Proof.
  induction a as [|x a IH]; [done|].
  change (String x (a +:+ EmptyString) = String x a). by rewrite IH.
Qed.

Lemma lines_app xs ys : lines (xs ++ ys) = lines xs +:+ lines ys.
Proof.
  induction xs as [|x xs IH]; cbn [lines app]; [done|].
  by rewrite IH, !string_app_assoc.
Qed.

Lemma count_nl_app a b : count_nl (a +:+ b) = count_nl a + count_nl b.
Proof.
  induction a as [|x a IH]; [done|].
  change (count_nl (String x (a +:+ b)) = count_nl (String x a) + count_nl b).
  cbn [count_nl]. rewrite IH. lia.
Qed.

Ltac solve_preserves :=
  intros m Hm; unfold_stmts; run_step; repeat next_case; try exact Hm.

(** Proves [Forall (preserves P)] of the statements of a run, given a
    tactic that proves it of one statement. *)
Ltac each_step tac :=
  unfold steps, startup, cell_3d4c4add, cell_3e484b89, cell_df8125d7,
    cell_5b360b6a, cell_834b52ff, cell_0b7ddd82;
  cbn [app drop take];
  repeat apply Forall_cons_2; try (by apply Forall_nil); try (tac; fail);
  try (apply Forall_app_2;
       [ match goal with |- Forall _ (flat_map _ ?ts) =>
           let IH := fresh "IH" in
           induction ts as [|? ts IH]; [constructor|];
           cbn [flat_map loop_body app];
           repeat apply Forall_cons_2; [| | |exact IH]; tac
         end
       | repeat apply Forall_cons_2; [|constructor]; tac ]).

(** Every statement of the run keeps the [.env] file as it is and
    writes to standard output by [print] only. *)
Lemma steps_quiet w ts file : Forall (preserves (quiet file)) (steps w ts).
Proof.
  assert (Hlog : ∀ ev m, printed [ev] = [] →
            quiet file m → quiet file (log ev m)).
  { intros ev m Hev (Hf & Ho). repeat split; cbn; try done.
    unfold printed in *. by rewrite omap_app, Hev, app_nil_r. }
  assert (Hglob : ∀ f m, quiet file m → quiet file (update_globals f m))
    by (intros f m (Hf & Ho); by repeat split).
  assert (Henv : ∀ f m, quiet file m → quiet file (update_environ f m))
    by (intros f m (Hf & Ho); by repeat split).
  assert (Hprint : ∀ s m, quiet file m →
            quiet file (log (E_print s) (write_stdout (s +:+ nl) m))).
  { intros s m (Hf & Ho). repeat split; cbn; try done.
    unfold printed in *. rewrite omap_app, lines_app, Ho. cbn.
    by rewrite string_app_nil_r. }
  each_step ltac:(solve_preserves;
    repeat (first [apply Hglob | apply Hprint | apply Hlog; [done|]
                  | apply Henv]); done).
Qed.

(** A statement that is not an import keeps the process environment. *)
Ltac keeps_environ :=
  intros m Hm; unfold_stmts; run_step; repeat next_case; exact Hm.

(** From the statement after the last import on, no statement changes
    the process environment. *)
Lemma steps_keep_environ w ts env :
  Forall (preserves (environ_is env)) (drop 13 (steps w ts)).
Proof. each_step ltac:(keeps_environ). Qed.

(** When the imports leave the process environment as it is, every
    statement does. *)
Lemma steps_keep_environ_all w ts env :
  imports_keep_environ w → Forall (preserves (environ_is env)) (steps w ts).
Proof.
  intros Hw.
  each_step ltac:(intros m Hm; unfold_stmts; run_step; repeat next_case;
                  unfold environ_is; machine_simpl; rewrite ?Hw; exact Hm).
Qed.

(** ** Reading the log of a run *)

(** The imports and calls of the startup cells that can raise. *)
Lemma startup_raised_cases env1 env2 tools k ev :
  startup_events env1 env2 tools !! k = Some ev →
  collaborator_call ev = true →
  (k = 0 ∧ ev = E_import "dotenv" "load_dotenv" (Ok ()))
  ∨ (k = 1 ∧ ev = E_import "camel.toolkits" "MCPToolkit" (Ok ()))
  ∨ (k = 3 ∧ ev = E_MCPToolkit (mcp_config_literal (env1 !! "ACI_API_KEY")) (Ok ()))
  ∨ (k = 4 ∧ ev = E_connect (the_toolkit env1) (Ok ()))
  ∨ (k = 5 ∧ ev = E_import "camel.agents" "ChatAgent" (Ok ()))
  ∨ (k = 6 ∧ ev = E_import "camel.messages" "BaseMessage" (Ok ()))
  ∨ (k = 7 ∧ ev = E_import "camel.models" "ModelFactory" (Ok ()))
  ∨ (k = 8 ∧ ev = E_import "camel.types" "ModelPlatformType" (Ok ()))
  ∨ (k = 9 ∧ ev = E_get_tools (the_toolkit env1) (Ok tools))
  ∨ (k = 11 ∧ ev = E_ModelFactory_create (model_kwargs (env2 !! "GOOGLE_API_KEY")) (Ok ()))
  ∨ (k = 12 ∧ ev = E_make_assistant_message the_sys_msg (Ok ()))
  ∨ (k = 13 ∧ ev = E_ChatAgent (the_agent env2 tools) (Ok ())).
Proof.
  unfold startup_events.
  do 14 (destruct k as [|k]; [intros [= <-] Hc; try discriminate Hc; tauto|]).
  intros [=].
Qed.

(** Case analysis on the startup import or call that raised. *)
Ltac startup_cases Hk Hc :=
  destruct (startup_raised_cases _ _ _ _ _ Hk Hc)
    as [(-> & ->)|[(-> & ->)|[(-> & ->)|[(-> & ->)|[(-> & ->)|[(-> & ->)
       |[(-> & ->)|[(-> & ->)|[(-> & ->)|[(-> & ->)|[(-> & ->)|(-> & ->)
       ]]]]]]]]]]].

Section loop_events.
Context (a : ChatAgent.t) (zs : list (string * ChatAgentResponse.t)).

Lemma astep_tasks_loop : astep_tasks (loop_events a zs) = zs.*1.
Proof. induction zs as [|z l IH]; [done|]. cbn. by rewrite <- IH. Qed.

Lemma returned_tasks_loop : returned_tasks (loop_events a zs) = zs.*1.
Proof. induction zs as [|z l IH]; [done|]. cbn. by rewrite <- IH. Qed.

Lemma responses_loop : responses (loop_events a zs) = zs.*2.
Proof. induction zs as [|z l IH]; [done|]. cbn. by rewrite <- IH. Qed.

Lemma printed_loop : printed (loop_events a zs) = text_of <$> zs.*2.
Proof. induction zs as [|z l IH]; [done|]. cbn. by rewrite <- IH. Qed.

Lemma env_reads_loop : env_reads (loop_events a zs) = [].
Proof. induction zs as [|z l IH]; [done|]. cbn. by rewrite <- IH. Qed.

Lemma toolkit_configs_loop : toolkit_configs (loop_events a zs) = [].
Proof. induction zs as [|z l IH]; [done|]. cbn. by rewrite <- IH. Qed.

Lemma connections_loop : connections (loop_events a zs) = [].
Proof. induction zs as [|z l IH]; [done|]. cbn. by rewrite <- IH. Qed.

Lemma disconnects_loop : disconnects (loop_events a zs) = [].
Proof. induction zs as [|z l IH]; [done|]. cbn. by rewrite <- IH. Qed.

Lemma loop_events_raised ev : ev ∈ loop_events a zs → raised ev = None.
Proof.
  induction zs as [|z l IH]; [by intros ?%elem_of_nil|].
  cbn. rewrite !elem_of_cons. intros [->|[->|?]]; auto.
Qed.
End loop_events.

Lemma raised_fail_with e ev :
  collaborator_call ev = true → raised (fail_with e ev) = Some e.
Proof. by destruct ev. Qed.

Lemma startup_events_raised env1 env2 tools :
  Forall (λ ev, raised ev = None) (startup_events env1 env2 tools).
Proof. unfold startup_events. by repeat constructor. Qed.

Lemma startup_events_astep env1 env2 tools :
  Forall (λ ev, is_astep ev = false) (startup_events env1 env2 tools).
Proof. unfold startup_events. by repeat constructor. Qed.



(** Where an element of [l1 ++ l2] sits: in [l1], or in [l2]. *)
Lemma split_app {A} (l1 : list A) : ∀ l2 pre x post,
  l1 ++ l2 = pre ++ x :: post →
  (∃ i, l1 !! i = Some x ∧ pre = take i l1 ∧ post = drop (S i) l1 ++ l2)
  ∨ (∃ k, pre = l1 ++ k ∧ l2 = k ++ x :: post).
Proof.
  induction l1 as [|y l1 IH]; intros l2 pre x post Heq.
  - right. by exists pre.
  - destruct pre as [|p pre].
    + injection Heq as -> <-. left. by exists 0.
    + injection Heq as -> Heq.
      apply IH in Heq as [(i & Hi & -> & ->)|(k & -> & ->)].
      * left. by exists (S i).
      * right. by exists k.
Qed.

(** The shape of a run, in terms of [log_of] and [outcome_of]. *)
Lemma log_shape w ts env file :
  Shape (config_environ w ts env file) (model_environ w ts env file) ts
        (log_of w ts env file) (outcome_of w ts env file).
Proof. apply run_shape. Qed.

Lemma returns_before_teardown_last body z :
  returns_before_teardown (body ++ [z]) = true →
  raised z = None ∨ is_disconnect z = true.
Proof.
  unfold returns_before_teardown. rewrite forallb_app. cbn [forallb].
  intros [_ Hz%andb_prop%proj1]%andb_prop. destruct (raised z); auto.
Qed.



(** ** Program points *)

Lemma after_split w ts env file n k :
  k ≤ n →
  after w ts env file n
  = match exec (take k (steps w ts)) (boot env file) with
    | (Ok _, m) => (exec (take (n - k) (drop k (steps w ts))) m).2
    | (Raise _, m) => m
    end.
Proof.
  intros Hk. unfold after.
  replace n with (k + (n - k)) at 1 by lia.
  rewrite <- take_take_drop, exec_app.
  by destruct (exec (take k (steps w ts)) (boot env file)) as [[[]|e] m].
Qed.

(** The run is the execution of all of [steps]. *)
Lemma final_after w ts env file :
  final w ts env file = after w ts env file (length (steps w ts)).
Proof.
  unfold final, run, after. by rewrite notebook_with_steps, take_ge.
Qed.

(** An invariant of the statements from the [k]-th on that holds after
    the first [k] holds at every later point. *)
Lemma after_preserves (P : Machine → Prop) w ts env file k n :
  Forall (preserves P) (drop k (steps w ts)) →
  P (after w ts env file k) → k ≤ n → P (after w ts env file n).
Proof.
  intros HP Hk Hn. rewrite (after_split _ _ _ _ n k Hn).
  unfold after in Hk.
  destruct (exec (take k (steps w ts)) (boot env file)) as [[[]|e] m];
    cbn [snd] in Hk; [|exact Hk].
  apply exec_preserves; [|exact Hk]. by apply Forall_take.
Qed.

Lemma after_quiet w ts env file n : quiet file (after w ts env file n).
Proof.
  unfold after. apply exec_preserves; [|done].
  apply Forall_take, steps_quiet.
Qed.

Lemma final_quiet w ts env file : quiet file (final w ts env file).
Proof. rewrite final_after. apply after_quiet. Qed.

(** When one of the first [k] statements raised, the run stopped there:
    the machine is the same at every later point. *)
Lemma after_stopped w ts env file k n :
  reaches w ts env file k = false → k ≤ n →
  after w ts env file n = after w ts env file k.
Proof.
  intros Hr Hn. rewrite (after_split _ _ _ _ n k Hn). unfold reaches, after in *.
  by destruct (exec (take k (steps w ts)) (boot env file)) as [[[]|e] m].
Qed.

(** Case analysis on the shape of a run, with names for the two
    environments the run reads. *)
Tactic Notation "run_cases" constr(w) constr(ts) constr(env) constr(file)
    "as" simple_intropattern(pat) :=
  let H := fresh "Hshape" in
  pose proof (log_shape w ts env file) as H;
  set (env1 := config_environ w ts env file) in *;
  set (env2 := model_environ w ts env file) in *;
  destruct H as pat.

(** ** C2: agent invocations *)




(** ** C3: failures *)

(** In a log whose calls before the last all returned, a call that
    raised is the last one. *)
Lemma raised_is_last (body : list Event) z : ∀ pre ev post,
  Forall (λ ev, raised ev = None) body →
  body ++ [z] = pre ++ ev :: post →
  raised ev ≠ None →
  pre = body ∧ ev = z ∧ post = [].
Proof.
  induction body as [|b body IH]; intros pre ev post Hb Heq Hev.
  - destruct pre as [|p [|? ?]]; [|done..]. by injection Heq as <- <-.
  - apply Forall_cons in Hb as [Hb1 Hb]. destruct pre as [|p pre].
    + injection Heq as <- _. done.
    + injection Heq as <- Heq. by destruct (IH _ _ _ Hb Heq Hev) as (-> & -> & ->).
Qed.

Lemma loop_events_all_returned a zs :
  Forall (λ ev, raised ev = None) (loop_events a zs).
Proof. apply Forall_forall, loop_events_raised. Qed.

Lemma disconnects_startup_raised env1 env2 tools k ev e :
  startup_events env1 env2 tools !! k = Some ev →
  collaborator_call ev = true →
  disconnects (take k (startup_events env1 env2 tools) ++ [fail_with e ev]) = []
  ∧ is_astep (fail_with e ev) = false.
Proof.
  intros Hk Hc. by startup_cases Hk Hc.
Qed.

(** C3.  When a collaborator call [ev] of the run (or an import) raises
    [e], nothing is logged after it and the run ends with [e] unhandled;
    unless [ev] is the [disconnect] call itself, [disconnect] is never
    called.  In particular, with three tasks, when [ev] is the second
    agent invocation, the agent was invoked for the first two tasks
    only. *)
Theorem C3_failure_ends_the_run w ts env file pre ev post e :
  log_of w ts env file = pre ++ ev :: post →
  raised ev = Some e →
  post = []
  ∧ outcome_of w ts env file = Raise e
  ∧ (is_disconnect ev = false → disconnects (log_of w ts env file) = [])
  ∧ (∀ t1 t2 t3, ts = [t1; t2; t3] → is_astep ev = true →
       length (astep_tasks pre) = 1 →
       astep_tasks (log_of w ts env file) = [t1; t2]).
Proof.
  destruct (log_shape w ts env file)
    as [k ev0 tools e0 Hk Hc|tools zs t rest e0 Hts|tools zs r Hts];
    intros Heq Hev.
  - apply raised_is_last in Heq as (-> & -> & ->);
      [|apply Forall_take, startup_events_raised|congruence].
    rewrite raised_fail_with in Hev by done. injection Hev as ->.
    destruct (disconnects_startup_raised _ _ tools k ev0 e Hk Hc) as [Hd Ha].
    repeat split; [done|]. intros ? ? ? _ ?. congruence.
  - rewrite app_assoc in Heq.
    apply raised_is_last in Heq as (-> & -> & ->);
      [|apply Forall_app_2; [apply startup_events_raised|apply loop_events_all_returned]
       |congruence].
    injection Hev as ->. repeat split.
    + intros _. unfold disconnects. rewrite !omap_app. fold disconnects.
      by rewrite disconnects_loop.
    + intros t1 t2 t3 -> _. unfold astep_tasks. rewrite !omap_app.
      fold astep_tasks. rewrite !astep_tasks_loop. cbn.
      rewrite length_fmap. destruct zs as [|[ta ra] [|? ?]]; [done| |done].
      intros _. by injection Hts as -> -> _.
  - rewrite app_assoc in Heq.
    apply raised_is_last in Heq as (-> & -> & ->);
      [|apply Forall_app_2; [apply startup_events_raised|apply loop_events_all_returned]
       |congruence].
    cbn in Hev. destruct r as [[]|e']; [done|]. injection Hev as ->.
    repeat split; [done|]. intros ? ? ? _ ?. done.
Qed.

(** C3, witness: the mock agent raises on the second of the notebook's
    three tasks. *)
Lemma C3_failure_ends_the_run_witness :
  outcome_of (mock_world raises_on_second) notebook_tasks full_env ∅
  = Raise (CollaboratorError "agent failed")
  ∧ disconnects (log_of (mock_world raises_on_second) notebook_tasks full_env ∅)
    = []
  ∧ astep_tasks (log_of (mock_world raises_on_second) notebook_tasks full_env ∅)
    = take 2 notebook_tasks.
Proof.
  pose (tools := [ {| tool_name := "REPLICATE__RUN" |} ]).
  pose (a := the_agent full_env tools).
  pose (t1 := default EmptyString (notebook_tasks !! 0)).
  pose (t2 := default EmptyString (notebook_tasks !! 1)).
  destruct (C3_failure_ends_the_run (mock_world raises_on_second)
              notebook_tasks full_env ∅
              (startup_events full_env full_env tools ++ iteration a (t1, reply t1))
              (E_astep a t2 (Raise (CollaboratorError "agent failed")))
              [] (CollaboratorError "agent failed"))
    as (_ & Ho & Hd & Ht); [vm_compute; reflexivity|reflexivity|].
  split; [exact Ho|]. split; [exact (Hd eq_refl)|].
  exact (Ht _ _ _ eq_refl eq_refl eq_refl).
Defined.

(** ** C4: teardown *)

Lemma returned_tasks_startup_raised env1 env2 tools k ev e :
  startup_events env1 env2 tools !! k = Some ev →
  collaborator_call ev = true →
  returned_tasks (take k (startup_events env1 env2 tools) ++ [fail_with e ev])
  = [].
Proof. intros Hk Hc. by startup_cases Hk Hc. Qed.

Lemma returns_before_teardown_completed env1 env2 tools zs r :
  returns_before_teardown
    (startup_events env1 env2 tools ++ loop_events (the_agent env2 tools) zs
       ++ [E_disconnect (the_toolkit env1) r]) = true.
Proof.
  unfold returns_before_teardown. rewrite !forallb_app.
  apply andb_true_intro. split; [reflexivity|].
  apply andb_true_intro. split.
  - apply forallb_forall. intros ev Hev%list_elem_of_In.
    by rewrite (loop_events_raised _ _ _ Hev).
  - cbn. by destruct (result_raised r).
Qed.

(** C4.  In every run in which no import and no call made before
    teardown raises (the startup completed and every task invocation
    succeeded, for a task list of any length, the empty one included),
    [disconnect] is called exactly once, as the last call of the run,
    after the agent was invoked for every task and every invocation
    returned.  For a task list that is not empty, the runs in which the
    agent returned for every task are exactly these runs. *)
Theorem C4_disconnect_once_after_tasks w ts env file :
  (returns_before_teardown (log_of w ts env file) = true →
   length (disconnects (log_of w ts env file)) = 1
   ∧ ∃ pre r,
       log_of w ts env file
       = pre ++ [E_disconnect (the_toolkit (config_environ w ts env file)) r]
       ∧ disconnects pre = []
       ∧ astep_tasks pre = ts
       ∧ returned_tasks pre = ts
       ∧ outcome_of w ts env file = r)
  ∧ (ts ≠ [] → returned_tasks (log_of w ts env file) = ts →
     returns_before_teardown (log_of w ts env file) = true).
Proof.
  destruct (log_shape w ts env file)
    as [k ev0 tools e0 Hk Hc|tools zs t rest e0 Hts|tools zs r Hts].
  - split.
    + intros Hret. apply returns_before_teardown_last in Hret.
      rewrite raised_fail_with in Hret by done.
      destruct Hret as [[=]|Hd]. by startup_cases Hk Hc.
    + intros Hne Hret.
      rewrite returned_tasks_startup_raised in Hret by done. congruence.
  - split.
    + intros Hret. rewrite app_assoc in Hret.
      by apply returns_before_teardown_last in Hret as [[=]|[=]].
    + intros _ Hret. unfold returned_tasks in Hret. rewrite !omap_app in Hret.
      fold returned_tasks in Hret. rewrite returned_tasks_loop in Hret.
      cbn in Hret. rewrite app_nil_r in Hret.
      apply (f_equal length) in Hret. rewrite Hts, length_app in Hret.
      cbn in Hret. lia.
  - split; [|intros _ _; apply returns_before_teardown_completed].
    intros _. split.
    + unfold disconnects. rewrite !omap_app. fold disconnects.
      by rewrite disconnects_loop.
    + eexists (startup_events _ _ tools ++ loop_events _ zs), r.
      rewrite <- app_assoc. repeat split.
      * unfold disconnects. rewrite omap_app. fold disconnects.
        by rewrite disconnects_loop.
      * unfold astep_tasks. rewrite omap_app. fold astep_tasks.
        by rewrite astep_tasks_loop.
      * unfold returned_tasks. rewrite omap_app. fold returned_tasks.
        by rewrite returned_tasks_loop.
Qed.

(** C4, witness: an empty task list and the notebook's three tasks,
    against collaborators that all return. *)
Lemma C4_disconnect_once_after_tasks_witness :
  (returns_before_teardown
     (log_of (mock_world (constant_agent "ok")) [] full_env ∅) = true
   ∧ length (disconnects
               (log_of (mock_world (constant_agent "ok")) [] full_env ∅)) = 1)
  ∧ (returned_tasks
       (log_of (mock_world (constant_agent "ok")) notebook_tasks full_env ∅)
     = notebook_tasks
     ∧ length (disconnects
                 (log_of (mock_world (constant_agent "ok")) notebook_tasks
                         full_env ∅)) = 1).
Proof.
  assert (H0 : returns_before_teardown
                 (log_of (mock_world (constant_agent "ok")) [] full_env ∅)
               = true) by (vm_compute; reflexivity).
  assert (Hne : notebook_tasks ≠ []) by discriminate.
  assert (Hret : returned_tasks
                   (log_of (mock_world (constant_agent "ok")) notebook_tasks
                           full_env ∅) = notebook_tasks)
    by (vm_compute; reflexivity).
  split.
  - split; [exact H0|].
    exact (proj1 (proj1 (C4_disconnect_once_after_tasks _ _ _ _) H0)).
  - split; [exact Hret|].
    destruct (C4_disconnect_once_after_tasks
                (mock_world (constant_agent "ok")) notebook_tasks full_env ∅)
      as [H1 H2].
    exact (proj1 (H1 (H2 Hne Hret))).
Defined.

(** ** C5: one task at a time *)

Lemma astep_tasks_startup_raised env1 env2 tools k ev e :
  startup_events env1 env2 tools !! k = Some ev →
  collaborator_call ev = true →
  astep_tasks (take k (startup_events env1 env2 tools) ++ [fail_with e ev]) = [].
Proof.
  intros Hk Hc. by startup_cases Hk Hc.
Qed.

(** In the log of the loop followed by one more call [z], the call for
    the task at position [i+1] comes right after the response to the
    task at position [i] was printed. *)
Lemma consecutive_asteps a z : ∀ zs i t,
  (∀ self t r, z = E_astep self t r → self = a) →
  (zs.*1 ++ astep_tasks [z]) !! S i = Some t →
  ∃ zs1 ti ri r post,
    loop_events a zs ++ [z]
    = loop_events a zs1
        ++ E_astep a ti (Ok ri) :: E_print (text_of ri) :: E_astep a t r :: post
    ∧ length zs1 = i ∧ zs !! i = Some (ti, ri).
Proof.
  intros zs. induction zs as [|[t0 r0] zs IH]; intros i t Hz Hlk.
  - by destruct z.
  - destruct i as [|i].
    + destruct zs as [|[t1 r1] zs].
      * destruct z as [| | | | | | | | |self t' r| |]; try done.
        injection Hlk as ->. rewrite (Hz _ _ _ eq_refl).
        by exists [], t0, r0, r, [].
      * injection Hlk as ->.
        by exists [], t0, r0, (Ok r1),
                  (E_print (text_of r1) :: loop_events a zs ++ [z]).
    + destruct (IH i t Hz Hlk) as (zs1 & ti & ri & r & post & Heq & Hlen & Hi).
      exists ((t0, r0) :: zs1), ti, ri, r, post.
      cbn [loop_events flat_map iteration fst snd app length].
      fold (loop_events a zs). fold (loop_events a zs1).
      rewrite Heq, Hlen. done.
Qed.

(** C5.  Whenever the agent is invoked for the task at position [i+1],
    that call comes immediately after the call for the task at position
    [i] returned and its text was printed: the log reads [astep] of task
    [i] returning [ri], [print] of the text of [ri], [astep] of task
    [i+1], with exactly [i] agent invocations before. *)
Theorem C5_next_task_after_print w ts env file i t :
  astep_tasks (log_of w ts env file) !! S i = Some t →
  ∃ pre self ti ri r post,
    log_of w ts env file
    = pre ++ E_astep self ti (Ok ri) :: E_print (text_of ri)
            :: E_astep self t r :: post
    ∧ length (astep_tasks pre) = i
    ∧ ts !! i = Some ti
    ∧ ts !! S i = Some t.
Proof.
  run_cases w ts env file
    as [k ev0 tools e0 Hk Hc|tools zs t' rest e0 Hts|tools zs r0 Hts].
  - by rewrite astep_tasks_startup_raised.
  - unfold astep_tasks. rewrite !omap_app. fold astep_tasks.
    rewrite astep_tasks_loop. cbn [app]. intros Hlk.
    destruct (consecutive_asteps (the_agent env2 tools)
                (E_astep (the_agent env2 tools) t' (Raise e0)) zs i t)
      as (zs1 & ti & ri & r & post & Heq & Hlen & Hi);
      [by intros ? ? ? [= <- _ _]|exact Hlk|].
    exists (startup_events env1 env2 tools ++ loop_events (the_agent env2 tools) zs1),
           (the_agent env2 tools), ti, ri, r, post.
    rewrite Heq, <- app_assoc. repeat split.
    + unfold astep_tasks. rewrite omap_app. fold astep_tasks.
      rewrite astep_tasks_loop. cbn. by rewrite length_fmap.
    + rewrite Hts. apply lookup_app_l_Some. by rewrite list_lookup_fmap, Hi.
    + rewrite Hts, (cons_middle t'), app_assoc. by apply lookup_app_l_Some.
  - unfold astep_tasks. rewrite !omap_app. fold astep_tasks.
    rewrite astep_tasks_loop. cbn [app]. intros Hlk.
    destruct (consecutive_asteps (the_agent env2 tools)
                (E_disconnect (the_toolkit env1) r0) zs i t)
      as (zs1 & ti & ri & r & post & Heq & Hlen & Hi);
      [by intros ? ? ? [=]|exact Hlk|].
    exists (startup_events env1 env2 tools ++ loop_events (the_agent env2 tools) zs1),
           (the_agent env2 tools), ti, ri, r, post.
    rewrite Heq, <- app_assoc. repeat split.
    + unfold astep_tasks. rewrite omap_app. fold astep_tasks.
      rewrite astep_tasks_loop. cbn. by rewrite length_fmap.
    + rewrite Hts. by rewrite list_lookup_fmap, Hi.
    + rewrite Hts. cbn in Hlk. by rewrite app_nil_r in Hlk.
Qed.

(** C5, witness: the second of the notebook's tasks, against
    collaborators that all return. *)
Lemma C5_next_task_after_print_witness :
  astep_tasks
    (log_of (mock_world (constant_agent "ok")) notebook_tasks full_env ∅) !! 1
  = Some (default EmptyString (notebook_tasks !! 1))
  ∧ ∃ pre self ti ri r post,
      log_of (mock_world (constant_agent "ok")) notebook_tasks full_env ∅
      = pre ++ E_astep self ti (Ok ri) :: E_print (text_of ri)
              :: E_astep self (default EmptyString (notebook_tasks !! 1)) r
              :: post
      ∧ length (astep_tasks pre) = 0
      ∧ notebook_tasks !! 0 = Some ti
      ∧ notebook_tasks !! 1 = Some (default EmptyString (notebook_tasks !! 1)).
Proof.
  assert (H : astep_tasks
                (log_of (mock_world (constant_agent "ok")) notebook_tasks
                        full_env ∅) !! 1
              = Some (default EmptyString (notebook_tasks !! 1)))
    by (vm_compute; reflexivity).
  split; [exact H|].
  exact (C5_next_task_after_print _ notebook_tasks full_env ∅ 0 _ H).
Defined.

(** ** C6: console output *)

(** A run has at least the seventeen startup statements, the statement
    that binds [tasks] and the teardown. *)
Lemma length_steps w ts : 19 ≤ length (steps w ts).
Proof. unfold steps. rewrite !length_app. cbn. lia. Qed.

(** At the end of a run the process environment is as the last import
    left it. *)
Lemma final_environ w ts env file :
  environ (final w ts env file) = model_environ w ts env file.
Proof.
  rewrite final_after.
  apply (after_preserves (environ_is (model_environ w ts env file))
           w ts env file 13); [apply steps_keep_environ|done|].
  pose proof (length_steps w ts). lia.
Qed.

Lemma printed_startup_raised env1 env2 tools k ev e :
  startup_events env1 env2 tools !! k = Some ev →
  collaborator_call ev = true →
  printed (take k (startup_events env1 env2 tools) ++ [fail_with e ev]) = []
  ∧ responses (take k (startup_events env1 env2 tools) ++ [fail_with e ev]) = [].
Proof.
  intros Hk Hc. by startup_cases Hk Hc.
Qed.

(** What is printed is the text of each response, in order. *)
Lemma printed_responses w ts env file :
  printed (log_of w ts env file) = text_of <$> responses (log_of w ts env file).
Proof.
  destruct (log_shape w ts env file)
    as [k ev0 tools e0 Hk Hc|tools zs t' rest e0 Hts|tools zs r0 Hts].
  - by destruct (printed_startup_raised _ _ tools k ev0 e0 Hk Hc) as [-> ->].
  - unfold printed, responses. rewrite !omap_app. fold printed responses.
    rewrite printed_loop, responses_loop. cbn. by rewrite !app_nil_r.
  - unfold printed, responses. rewrite !omap_app. fold printed responses.
    rewrite printed_loop, responses_loop. cbn. by rewrite !app_nil_r.
Qed.

Lemma count_nl_lines texts :
  Forall (λ s, count_nl s = 0) texts → count_nl (lines texts) = length texts.
Proof.
  induction 1 as [|s texts Hs _ IH]; [done|].
  cbn [lines length]. rewrite !count_nl_app, Hs, IH. done.
Qed.

(** C6 (amended).  The driver prints the text of each response that the
    agent returned, verbatim and followed by one line break, in order,
    and writes nothing else: standard output is exactly these lines, the
    process environment is as the last import left it and the [.env]
    file is untouched.  A response is one line of output when its text
    has no line break of its own.  With a single task whose response
    text is [text], standard output is [text] and a line break, printed
    once. *)
Theorem C6_prints_each_response w ts env file :
  printed (log_of w ts env file) = text_of <$> responses (log_of w ts env file)
  ∧ stdout (final w ts env file) = lines (printed (log_of w ts env file))
  ∧ environ (final w ts env file) = model_environ w ts env file
  ∧ dotenv_file (final w ts env file) = file
  ∧ (Forall (λ r, count_nl (text_of r) = 0) (responses (log_of w ts env file)) →
     count_nl (stdout (final w ts env file))
     = length (responses (log_of w ts env file)))
  ∧ (∀ t r, ts = [t] → responses (log_of w ts env file) = [r] →
     printed (log_of w ts env file) = [text_of r]
     ∧ stdout (final w ts env file) = text_of r +:+ nl).
Proof.
  destruct (final_quiet w ts env file) as (Hf & Ho).
  pose proof (final_environ w ts env file) as He.
  pose proof (printed_responses w ts env file) as Hp.
  change (trace (final w ts env file)) with (log_of w ts env file) in Ho.
  split; [exact Hp|]. split; [exact Ho|]. split; [exact He|].
  split; [exact Hf|]. split.
  - intros Hr. rewrite Ho, Hp, count_nl_lines, length_fmap; [done|].
    by apply Forall_fmap.
  - intros t r _ Hr. rewrite Ho, Hp, Hr. split; [done|].
    cbn. by rewrite string_app_nil_r.
Qed.

(** C6, witness: the scenario of the specification. *)
Lemma C6_prints_each_response_witness :
  printed (log_of (mock_world (constant_agent "1 car found"))
                  ["find all cars in image X"] full_env ∅)
  = ["1 car found"]
  ∧ stdout (final (mock_world (constant_agent "1 car found"))
                  ["find all cars in image X"] full_env ∅)
    = "1 car found" +:+ nl.
Proof.
  exact (proj2 (proj2 (proj2 (proj2 (proj2
           (C6_prints_each_response
              (mock_world (constant_agent "1 car found"))
              ["find all cars in image X"] full_env ∅)))))
           "find all cars in image X" (reply "1 car found") eq_refl
           ltac:(vm_compute; reflexivity)).
Defined.

(** C6 as stated fails: a response whose text spans two lines is
    printed as two lines, not one. *)
Lemma C6_counterexample :
  length (responses (log_of (mock_world (constant_agent two_line_text))
                            ["find all cars in image X"] full_env ∅)) = 1
  ∧ count_nl (stdout (final (mock_world (constant_agent two_line_text))
                            ["find all cars in image X"] full_env ∅)) = 2
  ∧ count_nl (stdout (final (mock_world (constant_agent two_line_text))
                            ["find all cars in image X"] full_env ∅))
    ≠ length (responses (log_of (mock_world (constant_agent two_line_text))
                                ["find all cars in image X"] full_env ∅)).
Proof. vm_compute. repeat split; discriminate. Qed.


(** ** C1 and C7: credentials *)

Lemma loop_events_Forall (P : Event → Prop) a zs :
  (∀ t r, P (E_astep a t r)) → (∀ s, P (E_print s)) →
  Forall P (loop_events a zs).
Proof.
  intros Ha Hp. induction zs as [|z zs IH]; [constructor|].
  cbn. by repeat constructor.
Qed.

(** A property of every call the notebook can make holds of every
    event of the log of a run. *)
Lemma log_Forall (P : Event → Prop) w ts env file :
  let env1 := config_environ w ts env file in
  let env2 := model_environ w ts env file in
  (∀ tools, Forall P (startup_events env1 env2 tools)) →
  (∀ tools k ev e, startup_events env1 env2 tools !! k = Some ev →
     collaborator_call ev = true → P (fail_with e ev)) →
  (∀ tools t r, P (E_astep (the_agent env2 tools) t r)) →
  (∀ s, P (E_print s)) →
  (∀ r, P (E_disconnect (the_toolkit env1) r)) →
  Forall P (log_of w ts env file).
Proof.
  intros env1 env2 Hs Hf Ha Hp Hd.
  destruct (log_shape w ts env file)
    as [k ev0 tools e0 Hk Hc|tools zs t' rest e0 Hts|tools zs r0 Hts].
  - apply Forall_app_2; [apply Forall_take, Hs|]. repeat constructor. eauto.
  - repeat apply Forall_app_2; [apply Hs|by apply loop_events_Forall|].
    repeat constructor. apply Ha.
  - repeat apply Forall_app_2; [apply Hs|by apply loop_events_Forall|].
    repeat constructor. apply Hd.
Qed.

Lemma log_getenv_ok w ts env file :
  Forall (getenv_ok (config_environ w ts env file) (model_environ w ts env file))
         (log_of w ts env file).
Proof.
  apply log_Forall; try done.
  - intros tools. unfold startup_events.
    repeat apply Forall_cons_2; try (by apply Forall_nil); cbn [getenv_ok]; auto.
  - intros tools k ev e Hk Hc. by startup_cases Hk Hc.
Qed.

Lemma server_env_literal v :
  server_env (mcp_config_literal v) = {[ "ACI_API_KEY" := v ]}.
Proof. reflexivity. Qed.

(** Inverts membership in an explicit list. *)
Ltac inv_elem H :=
  repeat (apply elem_of_cons in H as [H|H]; [try discriminate H|]);
  try (by apply elem_of_nil in H).

(** Proves membership in an explicit list. *)
Ltac elem_tac :=
  solve [repeat first [apply list_elem_of_here | apply list_elem_of_further]].

(** The log only grows. *)
Lemma steps_extend_log w ts tr :
  Forall (preserves (λ m, tr `prefix_of` trace m)) (steps w ts).
Proof.
  each_step ltac:(intros m Hm; unfold_stmts; run_step; repeat next_case;
                  repeat (apply prefix_app_r); exact Hm).
Qed.

Lemma after_extends w ts env file k n :
  k ≤ n → trace (after w ts env file k) `prefix_of` trace (after w ts env file n).
Proof.
  intros Hn.
  apply (after_preserves (λ m, trace (after w ts env file k) `prefix_of` trace m)
           w ts env file k n); [|done|exact Hn].
  apply Forall_drop, steps_extend_log.
Qed.

Lemma log_after w ts env file :
  log_of w ts env file = trace (after w ts env file (length (steps w ts))).
Proof. unfold log_of. by rewrite <- final_after. Qed.

(** The machine after the first six statements. *)
Lemma startup_1_after w ts env file :
  (reaches w ts env file 6 = true
   ∧ trace (after w ts env file 6)
     = [ E_import "dotenv" "load_dotenv" (Ok ());
         E_import "camel.toolkits" "MCPToolkit" (Ok ()) ]
   ∧ Globals.os (globals (after w ts env file 6)) = Some (py_module "os"))
  ∨ (reaches w ts env file 6 = false
     ∧ ∃ e, trace (after w ts env file 6)
            = [ E_import "dotenv" "load_dotenv" (Raise e) ]
          ∨ trace (after w ts env file 6)
            = [ E_import "dotenv" "load_dotenv" (Ok ());
                E_import "camel.toolkits" "MCPToolkit" (Raise e) ]).
Proof.
  unfold reaches, after.
  change (take 6 (steps w ts)) with (startup_1 w).
  destruct (exec (startup_1 w) (boot env file)) as [o m] eqn:H.
  destruct (startup_1_run _ _ _ _ _ H)
    as [(-> & Htr & Hg)|[(e & -> & Htr)|(e & -> & Htr)]]; cbn [fst snd].
  - left. rewrite Hg. done.
  - right. split; [done|]. exists e. by left.
  - right. split; [done|]. exists e. by right.
Qed.

(** The first six statements returned exactly when the log has the
    return of the second import. *)
Lemma reaches_config w ts env file :
  reaches w ts env file 6 = true
  ↔ E_import "camel.toolkits" "MCPToolkit" (Ok ()) ∈ log_of w ts env file.
Proof.
  pose proof (length_steps w ts) as Hlen.
  destruct (startup_1_after w ts env file)
    as [(Hr & Htr & _)|(Hr & e & Htr)]; rewrite Hr.
  - split; [intros _|done].
    destruct (after_extends w ts env file 6 (length (steps w ts)))
      as [k Hk]; [lia|].
    rewrite log_after, Hk, Htr. elem_tac.
  - split; [done|]. rewrite log_after.
    rewrite (after_stopped _ _ _ _ 6) by (done || lia).
    destruct Htr as [-> | ->]; intros H; inv_elem H.
Qed.

(** Where an [os.getenv] call sits in a prefix of the startup log that
    is followed by events [l] that are not reads: it is the third event,
    after the two imports, or the eleventh, right after [get_tools]
    returned. *)
Lemma getenv_position env1 env2 tools j l pre k v post :
  take j (startup_events env1 env2 tools) ++ l = pre ++ E_getenv k v :: post →
  Forall (λ ev, env_reads [ev] = []) l →
  (k = "ACI_API_KEY" ∧ v = env1 !! "ACI_API_KEY"
   ∧ pre = take 2 (startup_events env1 env2 tools))
  ∨ (k = "GOOGLE_API_KEY" ∧ v = env2 !! "GOOGLE_API_KEY"
     ∧ pre = take 10 (startup_events env1 env2 tools)).
Proof.
  intros Heq Hl.
  apply split_app in Heq as [(i & Hi & -> & _)|(l' & _ & ->)].
  - apply lookup_take_Some in Hi as [Hi Hij].
    rewrite take_take, Nat.min_l by lia. unfold startup_events in Hi.
    do 14 (destruct i as [|i];
           [first [discriminate Hi
                  |left; revert Hi; by intros [= <- <-]
                  |right; revert Hi; by intros [= <- <-]]|]).
    by destruct i.
  - apply Forall_app in Hl as [_ [Hl _]%Forall_cons]. discriminate Hl.
Qed.

Lemma loop_events_no_reads a zs :
  Forall (λ ev, env_reads [ev] = []) (loop_events a zs).
Proof. by apply loop_events_Forall. Qed.

(** The same, in the log of a run. *)
Lemma getenv_in_log w ts env file pre k v post :
  log_of w ts env file = pre ++ E_getenv k v :: post →
  ∃ tools,
    (k = "ACI_API_KEY" ∧ v = config_environ w ts env file !! "ACI_API_KEY"
     ∧ pre = take 2 (startup_events (config_environ w ts env file)
                       (model_environ w ts env file) tools))
    ∨ (k = "GOOGLE_API_KEY"
       ∧ v = model_environ w ts env file !! "GOOGLE_API_KEY"
       ∧ pre = take 10 (startup_events (config_environ w ts env file)
                          (model_environ w ts env file) tools)).
Proof.
  destruct (log_shape w ts env file)
    as [j ev0 tools e0 Hk Hc|tools zs t' rest e0 Hts|tools zs r0 Hts];
    intros Heq; exists tools.
  - eapply getenv_position; [exact Heq|].
    repeat constructor. by destruct ev0.
  - rewrite <- (take_ge (startup_events _ _ tools) 14) in Heq by done.
    eapply getenv_position; [exact Heq|].
    apply Forall_app_2; [apply loop_events_no_reads|by repeat constructor].
  - rewrite <- (take_ge (startup_events _ _ tools) 14) in Heq by done.
    eapply getenv_position; [exact Heq|].
    apply Forall_app_2; [apply loop_events_no_reads|by repeat constructor].
Qed.

(** The names read from the environment, by how far the run got. *)
Lemma env_reads_log w ts env file :
  env_reads (log_of w ts env file)
  = (if reaches w ts env file 6 then ["ACI_API_KEY"] else [])
      ++ (if tools_obtained (log_of w ts env file)
          then ["GOOGLE_API_KEY"] else []).
Proof.
  pose proof (reaches_config w ts env file) as Hr.
  destruct (log_shape w ts env file)
    as [k ev0 tools e0 Hk Hc|tools zs t' rest e0 Hts|tools zs r0 Hts].
  - startup_cases Hk Hc; cbn [take startup_events app fail_with] in *;
      (destruct (reaches w ts env file 6);
       [|try (exfalso; assert (false = true) as [=]; apply Hr; elem_tac)]);
      try (destruct Hr as [Hr _]; specialize (Hr eq_refl); inv_elem Hr);
      reflexivity.
  - rewrite (proj2 Hr) by (apply elem_of_app; left; elem_tac).
    unfold env_reads, tools_obtained. rewrite !omap_app, existsb_app.
    fold env_reads. by rewrite env_reads_loop.
  - rewrite (proj2 Hr) by (apply elem_of_app; left; elem_tac).
    unfold env_reads, tools_obtained. rewrite !omap_app, existsb_app.
    fold env_reads. by rewrite env_reads_loop.
Qed.

(** The config dicts handed to the [MCPToolkit] constructor: one, once
    the first six statements have returned. *)
Lemma toolkit_configs_log w ts env file :
  toolkit_configs (log_of w ts env file)
  = if reaches w ts env file 6
    then [mcp_config_literal (config_environ w ts env file !! "ACI_API_KEY")]
    else [].
Proof.
  pose proof (reaches_config w ts env file) as Hr.
  destruct (log_shape w ts env file)
    as [k ev0 tools e0 Hk Hc|tools zs t' rest e0 Hts|tools zs r0 Hts].
  - startup_cases Hk Hc; cbn [take startup_events app fail_with] in *;
      (destruct (reaches w ts env file 6);
       [|try (exfalso; assert (false = true) as [=]; apply Hr; elem_tac)]);
      try (destruct Hr as [Hr _]; specialize (Hr eq_refl); inv_elem Hr);
      reflexivity.
  - rewrite (proj2 Hr) by (apply elem_of_app; left; elem_tac).
    unfold toolkit_configs. rewrite !omap_app. fold toolkit_configs.
    by rewrite toolkit_configs_loop.
  - rewrite (proj2 Hr) by (apply elem_of_app; left; elem_tac).
    unfold toolkit_configs. rewrite !omap_app. fold toolkit_configs.
    by rewrite toolkit_configs_loop.
Qed.


(** ** Program points of the startup *)

(** The process environment at every point from the last import on. *)
Lemma environ_after_imports w ts env file n :
  13 ≤ n → environ (after w ts env file n) = model_environ w ts env file.
Proof.
  intros Hn.
  by apply (after_preserves (environ_is (model_environ w ts env file))
              w ts env file 13); [apply steps_keep_environ| |].
Qed.

(** When the first six statements returned, so does the seventh, which
    reads [ACI_API_KEY] and binds [mcp_config]. *)
Lemma run_to_config w ts env file :
  reaches w ts env file 6 = true →
  exec (take 7 (steps w ts)) (boot env file)
  = (Ok (),
     update_globals
       (Globals.set_mcp_config
          (mcp_config_literal (config_environ w ts env file !! "ACI_API_KEY")))
       (log (E_getenv "ACI_API_KEY"
               (config_environ w ts env file !! "ACI_API_KEY"))
          (after w ts env file 6))).
Proof.
  unfold reaches, config_environ, after.
  change (take 7 (steps w ts)) with (startup_1 w ++ [assign_mcp_config]).
  change (take 6 (steps w ts)) with (startup_1 w).
  rewrite exec_app.
  destruct (exec (startup_1 w) (boot env file)) as [o m] eqn:H.
  destruct (startup_1_run _ _ _ _ _ H)
    as [(-> & Htr & Hg)|[(e & -> & Htr)|(e & -> & Htr)]]; cbn [fst snd];
    [intros _|done..].
  rewrite exec_cons. erewrite assign_mcp_config_run by (by rewrite Hg).
  done.
Qed.

Lemma reaches_7 w ts env file :
  reaches w ts env file 6 = true → reaches w ts env file 7 = true.
Proof. intros H. unfold reaches. by rewrite run_to_config. Qed.

(** No statement after the one that binds [mcp_config] rebinds it. *)
Lemma steps_keep_config w ts c :
  Forall (preserves (config_bound c)) (drop 7 (steps w ts)).
Proof. each_step ltac:(solve_preserves; done). Qed.

(** No statement after the one that binds [system_prompt] rebinds it. *)
Lemma steps_keep_prompt w ts s :
  Forall (preserves (prompt_bound s)) (drop 5 (steps w ts)).
Proof. each_step ltac:(solve_preserves; done). Qed.

(** An invariant of the first [k] statements that holds at boot holds
    at every point up to the [k]-th. *)
Lemma after_early (P : Machine → Prop) w ts env file k n :
  Forall (preserves P) (take k (steps w ts)) →
  P (boot env file) → n ≤ k → P (after w ts env file n).
Proof.
  intros HP Hb Hn. unfold after.
  replace (take n (steps w ts)) with (take n (take k (steps w ts)))
    by (rewrite take_take; f_equal; lia).
  apply exec_preserves; [|exact Hb]. by apply Forall_take.
Qed.

(** The global [mcp_config] is unbound up to the statement that creates
    it; when the imports before that statement returned, it is bound to
    the same dict at every later point of the run, and it is never
    bound otherwise. *)
Lemma config_at w ts env file n :
  Globals.mcp_config (globals (after w ts env file n))
  = if decide (n ≤ 6) then None
    else if reaches w ts env file 6
         then Some (mcp_config_literal
                      (config_environ w ts env file !! "ACI_API_KEY"))
         else None.
Proof.
  assert (Hearly : ∀ n, n ≤ 6 →
            Globals.mcp_config (globals (after w ts env file n)) = None).
  { intros n' Hn'.
    apply (after_early (λ m, Globals.mcp_config (globals m) = None)
             w ts env file 6); [|done|exact Hn'].
    each_step ltac:(solve_preserves; done). }
  case_decide as Hn; [by apply Hearly|].
  destruct (reaches w ts env file 6) eqn:Hr.
  - apply (after_preserves (config_bound _) w ts env file 7);
      [apply steps_keep_config| |lia].
    unfold after. by rewrite run_to_config.
  - rewrite (after_stopped _ _ _ _ 6) by (done || lia). by apply Hearly.
Qed.

(** Likewise for [system_prompt], bound by the fifth statement. *)
Lemma prompt_at w ts env file n :
  Globals.system_prompt (globals (after w ts env file n))
  = if decide (n ≤ 4) then None
    else if reaches w ts env file 4 then Some system_prompt_literal
         else None.
Proof.
  assert (Hearly : ∀ n, n ≤ 4 →
            Globals.system_prompt (globals (after w ts env file n)) = None).
  { intros n' Hn'.
    apply (after_early (λ m, Globals.system_prompt (globals m) = None)
             w ts env file 4); [|done|exact Hn'].
    each_step ltac:(solve_preserves; done). }
  case_decide as Hn; [by apply Hearly|].
  destruct (reaches w ts env file 4) eqn:Hr.
  - apply (after_preserves (prompt_bound _) w ts env file 5);
      [apply steps_keep_prompt| |lia].
    unfold after, reaches in *.
    change (take 5 (steps w ts))
      with (take 4 (steps w ts) ++ [assign_system_prompt]).
    rewrite exec_app.
    by destruct (exec (take 4 (steps w ts)) (boot env file)) as [[[]|e] m].
  - rewrite (after_stopped _ _ _ _ 4) by (done || lia). by apply Hearly.
Qed.

(** The global [agent] is unbound until the statement that builds the
    agent has run. *)
Lemma agent_unbound_at w ts env file n :
  n ≤ 16 → agent_unbound (after w ts env file n).
Proof.
  intros Hn. apply (after_early agent_unbound w ts env file 16); [|done|exact Hn].
  each_step ltac:(solve_preserves; done).
Qed.


(** When the imports leave the process environment as it is, it is the
    one of the boot at every point of the run. *)
Lemma environ_kept w ts env file n :
  imports_keep_environ w → environ (after w ts env file n) = env.
Proof.
  intros Hw. unfold after.
  apply (exec_preserves (environ_is env)); [|done].
  apply Forall_take. by apply steps_keep_environ_all.
Qed.

(** A run that ends with an exception ends with the import or the
    collaborator call that raised it: no exception originates in the
    notebook itself. *)
Lemma raise_from_collaborator w ts env file e :
  outcome_of w ts env file = Raise e →
  ∃ pre ev, log_of w ts env file = pre ++ [ev]
            ∧ collaborator_call ev = true ∧ raised ev = Some e.
Proof.
  destruct (log_shape w ts env file)
    as [k ev0 tools e0 Hk Hc|tools zs t' rest e0 Hts|tools zs r0 Hts].
  - intros [= ->]. eexists _, _. split; [done|]. split.
    + by destruct ev0.
    + by apply raised_fail_with.
  - intros [= ->]. rewrite app_assoc. by eexists _, _.
  - intros ->. rewrite app_assoc. by eexists _, _.
Qed.

(** C1 (amended).  The notebook reads two named secrets, each by
    [os.getenv] from the process environment as it is at the time of
    the read, and the environment by no other means.  [ACI_API_KEY] is
    read in every run in which the first six statements returned (the
    imports before the read are the only ones of them that can raise),
    right after the two imports and before any collaborator is called;
    its value is the [ACI_API_KEY] entry of the server's [env] dict in
    the config handed to the toolkit.  [GOOGLE_API_KEY] is read exactly
    when the tool list was obtained, right after [get_tools] returned;
    its value is the [api_key] given to the model factory.  The
    environment the first read sees is the one after the sixth
    statement, the environment the second read sees is the one after
    the thirteenth, the last import, which no later statement changes.
    [REPLICATE_API_TOKEN] is never read. *)
Theorem C1_two_secrets_from_environ w ts env file :
  env_reads (log_of w ts env file)
  = (if reaches w ts env file 6 then ["ACI_API_KEY"] else [])
      ++ (if tools_obtained (log_of w ts env file)
          then ["GOOGLE_API_KEY"] else [])
  ∧ (∀ pre k v post,
       log_of w ts env file = pre ++ E_getenv k v :: post →
       (k = "ACI_API_KEY"
        ∧ v = config_environ w ts env file !! "ACI_API_KEY"
        ∧ pre = [ E_import "dotenv" "load_dotenv" (Ok ());
                  E_import "camel.toolkits" "MCPToolkit" (Ok ()) ])
       ∨ (k = "GOOGLE_API_KEY"
          ∧ v = model_environ w ts env file !! "GOOGLE_API_KEY"
          ∧ ∃ pre' tools,
              pre = pre' ++ [ E_get_tools
                                (the_toolkit (config_environ w ts env file))
                                (Ok tools) ]))
  ∧ (∀ c r, E_MCPToolkit c r ∈ log_of w ts env file →
       c = mcp_config_literal (config_environ w ts env file !! "ACI_API_KEY")
       ∧ server_env c !! "ACI_API_KEY"
         = Some (config_environ w ts env file !! "ACI_API_KEY"))
  ∧ (∀ kwargs r, E_ModelFactory_create kwargs r ∈ log_of w ts env file →
       Model.api_key kwargs = model_environ w ts env file !! "GOOGLE_API_KEY")
  ∧ (∀ n, 13 ≤ n →
       environ (after w ts env file n) = model_environ w ts env file)
  ∧ "REPLICATE_API_TOKEN" ∉ env_reads (log_of w ts env file).
Proof.
  pose proof (log_getenv_ok w ts env file) as Hok.
  rewrite Forall_forall in Hok.
  split; [apply env_reads_log|].
  split; [|split; [|split; [|split]]].
  - intros pre k v post Heq.
    destruct (getenv_in_log _ _ _ _ _ _ _ _ Heq)
      as (tools & [(-> & -> & ->)|(-> & -> & ->)]).
    + by left.
    + right. split; [done|]. split; [done|].
      by exists (take 9 (startup_events (config_environ w ts env file) ∅ tools)),
                tools.
  - intros c r H. rewrite (Hok _ H), server_env_literal.
    split; [done|]. apply lookup_singleton_eq.
  - intros kwargs r H. exact (Hok _ H).
  - apply environ_after_imports.
  - intros (ev & Hev & Hk)%list_elem_of_omap. specialize (Hok _ Hev).
    destruct ev; try discriminate Hk. injection Hk as ->.
    by destruct Hok as [[? _]|[? _]].
Qed.

(** C1 as stated fails: with all four documented keys set in the
    process environment and every import and collaborator returning,
    only two of them are read; [LINKED_ACCOUNT_OWNER_ID] and
    [REPLICATE_API_TOKEN] are not. *)
Lemma C1_counterexample :
  Forall (λ k, is_Some (full_env !! k)) documented_keys
  ∧ outcome_of (mock_world (constant_agent "ok")) notebook_tasks full_env ∅
    = Ok ()
  ∧ env_reads
      (log_of (mock_world (constant_agent "ok")) notebook_tasks full_env ∅)
    = ["ACI_API_KEY"; "GOOGLE_API_KEY"]
  ∧ ¬ Forall
        (λ k, k ∈ env_reads (log_of (mock_world (constant_agent "ok"))
                                    notebook_tasks full_env ∅))
        documented_keys.
Proof.
  assert (H : env_reads (log_of (mock_world (constant_agent "ok"))
                                notebook_tasks full_env ∅)
              = ["ACI_API_KEY"; "GOOGLE_API_KEY"]) by (vm_compute; reflexivity).
  split; [|split; [|split]].
  - unfold documented_keys. repeat apply Forall_cons_2; try (by apply Forall_nil);
      vm_compute; eauto.
  - vm_compute; reflexivity.
  - exact H.
  - rewrite H. unfold documented_keys. intros HF.
    apply Forall_cons in HF as [_ [HF _]%Forall_cons]. inv_elem HF.
Qed.

(** C7 (amended).  When [ACI_API_KEY] is absent from the process
    environment at the time the configuration record is built (the
    first six statements returned), credential loading substitutes and
    validates nothing and raises nothing: the statement that builds the
    record returns, the record bound to [mcp_config] and handed to the
    toolkit has the key [ACI_API_KEY] bound to the absent value [None],
    and [ACI_API_KEY] is its only entry.  When [GOOGLE_API_KEY] is
    absent at the time the model is created, the absent value is passed
    through as the [api_key] of the model factory call.  An exception
    that ends the run is always raised inside library code, by an
    import or by a collaborator call.  The environment at the time of a
    read is the one of the boot when the imports did not change it. *)
Theorem C7_absent_secret_passed_through w ts env file :
  (reaches w ts env file 6 = true →
   config_environ w ts env file !! "ACI_API_KEY" = None →
     reaches w ts env file 7 = true
     ∧ Globals.mcp_config (globals (after w ts env file 7))
       = Some (mcp_config_literal None)
     ∧ toolkit_configs (log_of w ts env file) = [mcp_config_literal None]
     ∧ server_env (mcp_config_literal None) !! "ACI_API_KEY" = Some None
     ∧ dom (server_env (mcp_config_literal None)) = {[ "ACI_API_KEY" ]})
  ∧ (model_environ w ts env file !! "GOOGLE_API_KEY" = None →
     ∀ kwargs r, E_ModelFactory_create kwargs r ∈ log_of w ts env file →
       Model.api_key kwargs = None)
  ∧ (∀ e, outcome_of w ts env file = Raise e →
     ∃ pre ev, log_of w ts env file = pre ++ [ev]
               ∧ collaborator_call ev = true ∧ raised ev = Some e)
  ∧ (imports_keep_environ w →
     config_environ w ts env file = env ∧ model_environ w ts env file = env).
Proof.
  split; [|split; [|split]].
  - intros Hr Habs. split; [by apply reaches_7|].
    rewrite config_at, toolkit_configs_log, Hr, Habs, server_env_literal.
    split; [done|]. split; [done|].
    split; [apply lookup_singleton_eq|apply dom_singleton_L].
  - intros Habs kwargs r H. rewrite <- Habs.
    pose proof (log_getenv_ok w ts env file) as Hok.
    rewrite Forall_forall in Hok. exact (Hok _ H).
  - apply raise_from_collaborator.
  - intros Hw. split; by apply environ_kept.
Qed.

(** C7, witness: an empty process environment, imports that leave it
    alone, no [.env] file. *)
Lemma C7_absent_secret_passed_through_witness :
  reaches (mock_world (constant_agent "ok")) notebook_tasks ∅ ∅ 6 = true
  ∧ config_environ (mock_world (constant_agent "ok")) notebook_tasks ∅ ∅
      !! "ACI_API_KEY" = None
  ∧ toolkit_configs
      (log_of (mock_world (constant_agent "ok")) notebook_tasks ∅ ∅)
    = [mcp_config_literal None]
  ∧ server_env (mcp_config_literal None) !! "ACI_API_KEY" = Some None.
Proof.
  assert (Hr : reaches (mock_world (constant_agent "ok")) notebook_tasks
                 ∅ ∅ 6 = true) by (vm_compute; reflexivity).
  assert (H : config_environ (mock_world (constant_agent "ok")) notebook_tasks
                ∅ ∅ !! "ACI_API_KEY" = None) by (vm_compute; reflexivity).
  destruct (proj1 (C7_absent_secret_passed_through
                     (mock_world (constant_agent "ok")) notebook_tasks
                     ∅ ∅) Hr H) as (_ & _ & Hc & Hs & _).
  split; [exact Hr|]. split; [exact H|]. split; [exact Hc|exact Hs].
Defined.

(** C7 as stated fails: with none of the four documented keys in the
    process environment, the configuration record holds an entry for
    [ACI_API_KEY] only; the other three names are not keys of it. *)
Lemma C7_counterexample :
  Forall (λ k, (∅ : gmap string string) !! k = None) documented_keys
  ∧ toolkit_configs
      (log_of (mock_world (constant_agent "ok")) notebook_tasks ∅ ∅)
    = [mcp_config_literal None]
  ∧ server_env (mcp_config_literal None) !! "GOOGLE_API_KEY" = None
  ∧ server_env (mcp_config_literal None) !! "REPLICATE_API_TOKEN" = None
  ∧ ¬ Forall (λ k, server_env (mcp_config_literal None) !! k = Some None)
        documented_keys.
Proof.
  split; [|split; [|split; [|split]]].
  - unfold documented_keys. by repeat apply Forall_cons_2.
  - vm_compute; reflexivity.
  - reflexivity.
  - reflexivity.
  - unfold documented_keys. intros HF.
    apply Forall_cons in HF as [_ [_ [HF _]%Forall_cons]%Forall_cons].
    discriminate HF.
Qed.

(** ** C8: the configuration record *)

Lemma log_toolkits w ts env file :
  Forall (λ ev, ∀ s, toolkit_of ev = Some s →
                     s = the_toolkit (config_environ w ts env file))
         (log_of w ts env file).
Proof.
  apply log_Forall; try done.
  - intros tools. unfold startup_events.
    repeat apply Forall_cons_2; try (by apply Forall_nil);
      intros s H; cbn [toolkit_of] in H; by simplify_eq.
  - intros tools k ev e Hk Hc.
    startup_cases Hk Hc;
      intros s H; cbn [toolkit_of fail_with] in H; by simplify_eq.
  - intros r s H. cbn [toolkit_of] in H. by simplify_eq.
Qed.

(** C8.  The configuration record is created once, by the seventh
    statement of the run: the global [mcp_config] is unbound before it
    and, when the run gets to that statement (the imports before it
    returned), bound to the same dict at every later point of the run,
    up to the end.  That dict holds the value [ACI_API_KEY] had in the
    process environment when it was built; it is what the [MCPToolkit]
    constructor receives, in its single call, and what the toolkit used
    by every [connect], [get_tools] and [disconnect] call holds.  In a
    run that an import ends before the seventh statement, the record is
    never created and no constructor is called. *)
Theorem C8_config_created_once_passed_unchanged w ts env file :
  (∀ n, Globals.mcp_config (globals (after w ts env file n))
        = if decide (n ≤ 6) then None
          else if reaches w ts env file 6
               then Some (mcp_config_literal
                            (config_environ w ts env file !! "ACI_API_KEY"))
               else None)
  ∧ final w ts env file = after w ts env file (length (steps w ts))
  ∧ toolkit_configs (log_of w ts env file)
    = (if reaches w ts env file 6
       then [mcp_config_literal (config_environ w ts env file !! "ACI_API_KEY")]
       else [])
  ∧ (∀ ev s, ev ∈ log_of w ts env file → toolkit_of ev = Some s →
       MCPToolkit.config_dict s
       = mcp_config_literal (config_environ w ts env file !! "ACI_API_KEY")).
Proof.
  split; [apply config_at|]. split; [apply final_after|].
  split; [apply toolkit_configs_log|].
  intros ev s Hev Hs. pose proof (log_toolkits w ts env file) as H.
  rewrite Forall_forall in H. by rewrite (H ev Hev s Hs).
Qed.

(** ** C9: the system instruction *)

Lemma log_system_messages w ts env file :
  Forall (λ ev, ∀ msg, system_message_of ev = Some msg → msg = the_sys_msg)
         (log_of w ts env file).
Proof.
  apply log_Forall; try done.
  - intros tools. unfold startup_events.
    repeat apply Forall_cons_2; try (by apply Forall_nil);
      intros msg H; cbn [system_message_of] in H; by simplify_eq.
  - intros tools k ev e Hk Hc.
    startup_cases Hk Hc;
      intros msg H; cbn [system_message_of fail_with] in H; by simplify_eq.
  - intros tools t r msg H. cbn [system_message_of] in H. by simplify_eq.
Qed.

(** C9.  The system instruction is the string bound to [system_prompt]
    by the fifth statement of the run, while [agent] is still unbound
    (the agent is built by the seventeenth).  When the run gets to the
    fifth statement (the import before it returned), the global is
    bound to that same string at every later point of the run; it is
    unbound at every other point.  The string is the content of the
    system message in the message-construction call, in the [ChatAgent]
    construction call, and in the agent on which every [astep] call is
    made. *)
Theorem C9_system_prompt_fixed w ts env file :
  (∀ n, Globals.system_prompt (globals (after w ts env file n))
        = if decide (n ≤ 4) then None
          else if reaches w ts env file 4 then Some system_prompt_literal
               else None)
  ∧ (∀ n, n ≤ 16 → Globals.agent (globals (after w ts env file n)) = None)
  ∧ final w ts env file = after w ts env file (length (steps w ts))
  ∧ (∀ ev msg, ev ∈ log_of w ts env file → system_message_of ev = Some msg →
       BaseMessage.content msg = system_prompt_literal).
Proof.
  split; [apply prompt_at|]. split; [apply agent_unbound_at|].
  split; [apply final_after|].
  intros ev msg Hev Hm. pose proof (log_system_messages w ts env file) as H.
  rewrite Forall_forall in H. by rewrite (H ev Hev msg Hm).
Qed.

(** ** C10: the [.env] file *)

(** Had the notebook called [load_dotenv] before a read, a key set in
    the [.env] file only would have been found. *)
Lemma load_dotenv_then_getenv env file k s :
  env !! k = None → file !! k = Some s →
  ((load_dotenv ≫= λ _, os_getenv k) (boot env file)).1 = Ok (Some s).
Proof.
  intros He Hf. unfold mbind, M_bind, load_dotenv, os_getenv.
  cbn [fst snd environ update_environ log boot dotenv_file].
  f_equal. apply lookup_union_Some_raw. right. done.
Qed.





(** * Further properties of the notebook *)

(** ** How a run ends *)

(** The run completes normally exactly when no logged import or call
    raised. *)
Theorem outcome_ok_iff_no_raise w ts env file :
  outcome_of w ts env file = Ok ()
  ↔ Forall (λ ev, raised ev = None) (log_of w ts env file).
Proof.
  destruct (log_shape w ts env file)
    as [k ev0 tools e0 Hk Hc|tools zs t' rest e0 Hts|tools zs r Hts].
  - split; [done|]. intros [_ H]%Forall_app.
    apply Forall_cons in H as [H _]. by rewrite raised_fail_with in H.
  - split; [done|]. intros [_ [_ H]%Forall_app]%Forall_app.
    by apply Forall_cons in H as [H _].
  - split.
    + intros ->. repeat apply Forall_app_2;
        [apply startup_events_raised|apply loop_events_all_returned|].
      by repeat constructor.
    + intros [_ [_ H]%Forall_app]%Forall_app.
      apply Forall_cons in H as [H _]. by destruct r as [[]|e].
Qed.

Lemma not_returns_before_teardown body z e :
  raised z = Some e → is_disconnect z = false →
  returns_before_teardown (body ++ [z]) = false.
Proof.
  intros Hz Hd. destruct (returns_before_teardown _) eqn:Hret; [|done].
  apply returns_before_teardown_last in Hret as [?|?]; congruence.
Qed.

(** [disconnect] is called once when no import and no call before it
    raised, and not at all otherwise. *)
Theorem disconnect_iff_nothing_raised_before w ts env file :
  length (disconnects (log_of w ts env file))
  = if returns_before_teardown (log_of w ts env file) then 1 else 0.
Proof.
  destruct (log_shape w ts env file)
    as [k ev0 tools e0 Hk Hc|tools zs t' rest e0 Hts|tools zs r Hts].
  - destruct (disconnects_startup_raised _ _ tools k ev0 e0 Hk Hc) as [-> _].
    rewrite (not_returns_before_teardown _ _ e0); [done|by apply raised_fail_with|].
    by startup_cases Hk Hc.
  - rewrite (app_assoc (startup_events _ _ tools)).
    rewrite (not_returns_before_teardown _ _ e0) by done.
    unfold disconnects. rewrite !omap_app. fold disconnects.
    by rewrite disconnects_loop.
  - rewrite returns_before_teardown_completed.
    unfold disconnects. rewrite !omap_app. fold disconnects.
    by rewrite disconnects_loop.
Qed.

(** In every run, whatever raises, the agent is invoked for the tasks in
    list order, without skipping or repeating one and never more often
    than there are tasks; all invocations but possibly the last returned,
    and there is one [print] per invocation that returned. *)
Theorem invocations_follow_task_list w ts env file :
  astep_tasks (log_of w ts env file) `prefix_of` ts
  ∧ returned_tasks (log_of w ts env file)
      `prefix_of` astep_tasks (log_of w ts env file)
  ∧ length (astep_tasks (log_of w ts env file))
    ≤ S (length (returned_tasks (log_of w ts env file)))
  ∧ length (printed (log_of w ts env file))
    = length (returned_tasks (log_of w ts env file)).
Proof.
  destruct (log_shape w ts env file)
    as [k ev0 tools e0 Hk Hc|tools zs t' rest e0 Hts|tools zs r Hts].
  - rewrite astep_tasks_startup_raised, returned_tasks_startup_raised by done.
    destruct (printed_startup_raised _ _ tools k ev0 e0 Hk Hc) as [-> _].
    split; [apply prefix_nil|]. split; [done|]. split; [cbn; lia|done].
  - unfold astep_tasks, returned_tasks, printed. rewrite !omap_app.
    fold astep_tasks returned_tasks printed.
    rewrite astep_tasks_loop, returned_tasks_loop, printed_loop.
    cbn [startup_events omap list_omap app]. rewrite !app_nil_r.
    split; [|split; [|split]].
    + exists rest. by rewrite Hts, <- app_assoc.
    + by exists [t'].
    + rewrite length_app. cbn. lia.
    + by rewrite !length_fmap.
  - unfold astep_tasks, returned_tasks, printed. rewrite !omap_app.
    fold astep_tasks returned_tasks printed.
    rewrite astep_tasks_loop, returned_tasks_loop, printed_loop.
    cbn [startup_events omap list_omap app]. rewrite !app_nil_r.
    split; [by rewrite Hts|].
    split; [done|]. split; [lia|]. by rewrite !length_fmap.
Qed.

(** ** What the agent is built from *)

Lemma loop_events_astep a zs ev :
  ev ∈ loop_events a zs → is_astep ev = true →
  ∃ t r, ev = E_astep a t (Ok r).
Proof.
  induction zs as [|[t0 r0] zs IH]; [by intros ?%elem_of_nil|].
  cbn. rewrite !elem_of_cons. intros [->|[->|?]] Ha; [by eexists _, _|done|auto].
Qed.

Lemma startup_events_no_astep env1 env2 tools ev :
  ev ∈ startup_events env1 env2 tools → is_astep ev = false.
Proof.
  intros H. pose proof (startup_events_astep env1 env2 tools) as HF.
  rewrite Forall_forall in HF. auto.
Qed.

(** The agent of every [astep] call of a run. *)
Lemma astep_agent w ts env file self t r :
  E_astep self t r ∈ log_of w ts env file →
  ∃ tools, self = the_agent (model_environ w ts env file) tools
           ∧ startup_events (config_environ w ts env file)
               (model_environ w ts env file) tools
             `prefix_of` log_of w ts env file.
Proof.
  run_cases w ts env file
    as [k ev0 tools e0 Hk Hc|tools zs t' rest e0 Hts|tools zs r0 Hts].
  - intros H. assert (t ∈ astep_tasks
                        (take k (startup_events env1 env2 tools)
                           ++ [fail_with e0 ev0]))
      as Ht by (apply list_elem_of_omap; by eexists).
    rewrite astep_tasks_startup_raised in Ht by done. by apply elem_of_nil in Ht.
  - rewrite !elem_of_app. intros [H|[H|H]].
    + by apply startup_events_no_astep in H.
    + apply loop_events_astep in H as (? & ? & [= -> _ _]); [|done].
      exists tools. split; [done|]. by eexists.
    + apply list_elem_of_singleton in H as [= -> _ _].
      exists tools. split; [done|]. by eexists.
  - rewrite !elem_of_app. intros [H|[H|H]].
    + by apply startup_events_no_astep in H.
    + apply loop_events_astep in H as (? & ? & [= -> _ _]); [|done].
      exists tools. split; [done|]. by eexists.
    + by apply list_elem_of_singleton in H.
Qed.

(** Every agent invocation is made on the agent that the [ChatAgent]
    constructor returned, and that agent was built from the tool list
    [get_tools] returned (on the toolkit built from the process
    environment of that time), the model the factory returned, the
    system message that was constructed, and no memory. *)
Theorem agent_built_from_returned_values w ts env file self t r :
  E_astep self t r ∈ log_of w ts env file →
  E_ChatAgent self (Ok ()) ∈ log_of w ts env file
  ∧ E_get_tools (the_toolkit (config_environ w ts env file))
                (Ok (ChatAgent.tools self))
    ∈ log_of w ts env file
  ∧ E_ModelFactory_create (ChatAgent.model self) (Ok ())
    ∈ log_of w ts env file
  ∧ E_make_assistant_message (ChatAgent.system_message self) (Ok ())
    ∈ log_of w ts env file
  ∧ ChatAgent.memory self = None.
Proof.
  intros (tools & -> & rest & ->)%astep_agent.
  rewrite !elem_of_app. unfold startup_events.
  split; [left; elem_tac|]. split; [left; elem_tac|].
  split; [left; elem_tac|]. split; [left; elem_tac|]. done.
Qed.

(** Witness: the single-task run with the mock agent. *)
Lemma agent_built_from_returned_values_witness :
  E_astep (the_agent ∅ [ {| tool_name := "REPLICATE__RUN" |} ])
          "find all cars in image X" (Ok (reply "1 car found"))
  ∈ log_of (mock_world (constant_agent "1 car found"))
           ["find all cars in image X"] ∅ ∅
  ∧ E_get_tools (the_toolkit ∅) (Ok [ {| tool_name := "REPLICATE__RUN" |} ])
    ∈ log_of (mock_world (constant_agent "1 car found"))
             ["find all cars in image X"] ∅ ∅.
Proof.
  assert (H : E_astep (the_agent ∅ [ {| tool_name := "REPLICATE__RUN" |} ])
                "find all cars in image X" (Ok (reply "1 car found"))
              ∈ log_of (mock_world (constant_agent "1 car found"))
                       ["find all cars in image X"] ∅ ∅).
  { vm_compute. elem_tac. }
  split; [exact H|].
  exact (proj1 (proj2 (agent_built_from_returned_values _ _ _ _ _ _ _ H))).
Defined.

(** ** The toolkit protocol *)

Lemma loop_events_no_toolkit a zs ev :
  ev ∈ loop_events a zs → toolkit_of ev = None.
Proof.
  induction zs as [|[t0 r0] zs IH]; [by intros ?%elem_of_nil|].
  cbn. rewrite !elem_of_cons. intros [->|[->|?]]; auto.
Qed.

(** Tries every position of an explicit list of at most fourteen
    events for a call on the toolkit. *)
Ltac toolkit_positions i Hi Hs :=
  do 15 (destruct i as [|i];
        [revert Hi; intros [= <-]; cbn [toolkit_of] in Hs; by simplify_eq|]);
  done.

(** Every call on the toolkit is made on the object the one
    [MCPToolkit] constructor call returned, built from the process
    environment of that time; [connect] is the first of them and is
    called at most once; [get_tools] and [disconnect] are only called
    once [connect] has returned. *)
Theorem toolkit_used_after_connect w ts env file pre ev post s :
  log_of w ts env file = pre ++ ev :: post →
  toolkit_of ev = Some s →
  s = the_toolkit (config_environ w ts env file)
  ∧ toolkit_configs pre = [MCPToolkit.config_dict s]
  ∧ connections pre = (if is_connect ev then [] else [s]).
Proof.
  destruct (log_shape w ts env file)
    as [k ev0 tools e0 Hk Hc|tools zs t' rest e0 Hts|tools zs r Hts];
    intros Heq Hs.
  - startup_cases Hk Hc;
      cbn [take startup_events app fail_with] in Heq;
      rewrite <- (app_nil_r (_ :: _)) in Heq;
      (apply split_app in Heq as [(i & Hi & -> & _)|(k' & _ & Hnil)];
       [|by destruct k']);
      toolkit_positions i Hi Hs.
  - apply split_app in Heq as [(i & Hi & -> & _)|(k & -> & Heq)].
    + unfold startup_events in *.
      toolkit_positions i Hi Hs.
    + apply split_app in Heq as [(i & Hi & _)|(k' & _ & Heq)].
      * apply list_elem_of_lookup_2, loop_events_no_toolkit in Hi. congruence.
      * destruct k' as [|? [|? ?]]; [|done..]. by injection Heq as <- _.
  - apply split_app in Heq as [(i & Hi & -> & _)|(k & -> & Heq)].
    + unfold startup_events in *.
      toolkit_positions i Hi Hs.
    + apply split_app in Heq as [(i & Hi & _)|(k' & -> & Heq)].
      * apply list_elem_of_lookup_2, loop_events_no_toolkit in Hi. congruence.
      * destruct k' as [|? [|? ?]]; [|done..]. injection Heq as <- _.
        injection Hs as <-. rewrite app_nil_r.
        unfold toolkit_configs, connections. rewrite !omap_app.
        fold toolkit_configs connections.
        by rewrite toolkit_configs_loop, connections_loop.
Qed.

(** Witness: the [disconnect] call of the single-task run. *)
Lemma toolkit_used_after_connect_witness :
  log_of (mock_world (constant_agent "1 car found"))
         ["find all cars in image X"] ∅ ∅
  = (startup_events ∅ ∅ [ {| tool_name := "REPLICATE__RUN" |} ]
       ++ iteration (the_agent ∅ [ {| tool_name := "REPLICATE__RUN" |} ])
                    ("find all cars in image X", reply "1 car found"))
      ++ E_disconnect (the_toolkit ∅) (Ok ()) :: []
  ∧ connections
      (startup_events ∅ ∅ [ {| tool_name := "REPLICATE__RUN" |} ]
         ++ iteration (the_agent ∅ [ {| tool_name := "REPLICATE__RUN" |} ])
                      ("find all cars in image X", reply "1 car found"))
    = [the_toolkit ∅].
Proof.
  assert (H : log_of (mock_world (constant_agent "1 car found"))
                     ["find all cars in image X"] ∅ ∅
              = (startup_events ∅ ∅ [ {| tool_name := "REPLICATE__RUN" |} ]
                   ++ iteration
                        (the_agent ∅ [ {| tool_name := "REPLICATE__RUN" |} ])
                        ("find all cars in image X", reply "1 car found"))
                  ++ E_disconnect (the_toolkit ∅) (Ok ()) :: [])
    by (vm_compute; reflexivity).
  split; [exact H|].
  exact (proj2 (proj2 (toolkit_used_after_connect _ _ _ _ _ _ _ _ H eq_refl))).
Defined.

(** ** The loop variables *)

Lemma loop_vars_log ev m :
  is_astep ev = false → loop_vars m → loop_vars (log ev m).
Proof.
  intros Hev [Ht Hr]. unfold loop_vars, astep_tasks, responses.
  cbn [log trace globals]. rewrite !omap_app.
  destruct ev; try discriminate Hev; cbn; by rewrite !app_nil_r.
Qed.

Ltac solve_loop_vars :=
  intros m Hm; unfold_stmts; run_step; repeat next_case;
  repeat (first [exact Hm | apply loop_vars_log; [reflexivity|]
                | match goal with
                  | |- loop_vars (update_globals _ _) =>
                      change (loop_vars (update_globals ?f ?m))
                        with (loop_vars m)
                  | |- loop_vars (update_environ _ _) =>
                      change (loop_vars (update_environ ?f ?m))
                        with (loop_vars m)
                  end]).

(** The startup cells leave the loop variables as they are. *)
Lemma startup_loop_vars w : Forall (preserves loop_vars) (startup w).
Proof.
  unfold startup, cell_3d4c4add, cell_3e484b89, cell_df8125d7,
    cell_5b360b6a, cell_834b52ff.
  cbn [app]. repeat apply Forall_cons_2; try (by apply Forall_nil);
    solve_loop_vars.
Qed.

Lemma astep_tasks_snoc tr a t r :
  astep_tasks (tr ++ [E_astep a t r]) = astep_tasks tr ++ [t].
Proof. unfold astep_tasks. by rewrite omap_app. Qed.

Lemma responses_snoc tr a t r :
  responses (tr ++ [E_astep a t (Ok r)]) = responses tr ++ [r].
Proof. unfold responses. by rewrite omap_app. Qed.

Lemma responses_snoc_raised tr a t e :
  responses (tr ++ [E_astep a t (Raise e)]) = responses tr.
Proof. unfold responses. rewrite omap_app. apply app_nil_r. Qed.

Lemma astep_tasks_snoc_print tr s :
  astep_tasks (tr ++ [E_print s]) = astep_tasks tr.
Proof. unfold astep_tasks. rewrite omap_app. apply app_nil_r. Qed.

Lemma responses_snoc_print tr s :
  responses (tr ++ [E_print s]) = responses tr.
Proof. unfold responses. rewrite omap_app. apply app_nil_r. Qed.

(** One pass through the loop body keeps them in step with the log. *)
Lemma iteration_in_loop w a t :
  preserves (in_loop a) (store Globals.set_task t;; exec (loop_body w)).
Proof.
  intros m [Ha [Ht Hr]]. rewrite bind_run, store_run. unfold loop_body.
  rewrite exec_cons. erewrite assign_response_run by (exact Ha || reflexivity).
  destruct (w_astep w _ a t) as [resp|e]; cbv beta iota.
  - rewrite exec_cons. erewrite print_response_run by reflexivity.
    cbn [exec]. unfold mret at 1, M_ret at 1.
    split; [exact Ha|]. unfold loop_vars.
    cbn [snd log update_globals write_stdout trace globals Globals.task
         Globals.response Globals.set_task Globals.set_response].
    rewrite astep_tasks_snoc_print, responses_snoc_print.
    by rewrite astep_tasks_snoc, responses_snoc, !last_snoc.
  - split; [exact Ha|]. unfold loop_vars.
    cbn [snd log update_globals trace globals Globals.task
         Globals.response Globals.set_task].
    by rewrite astep_tasks_snoc, responses_snoc_raised, last_snoc.
Qed.

(** The loop variables are in step with the log when the run ends. *)
Lemma final_loop_vars w ts env file : loop_vars (final w ts env file).
Proof.
  unfold final, run, notebook_with. rewrite exec_app.
  pose proof (exec_preserves loop_vars _ (startup_loop_vars w)
                (boot env file) (conj eq_refl eq_refl)) as Hv.
  destruct (exec (startup w) (boot env file)) as [o1 m1] eqn:Hs.
  destruct (startup_run _ _ _ _ _ Hs _ _ eq_refl eq_refl)
    as [(tools & -> & _ & Hag & _)|(k & ev & tools & e & -> & _)];
    [|exact Hv].
  cbn [snd] in Hv.
  eapply (exec_preserves (in_loop _)); [|split; [exact Hag|exact Hv]].
  unfold cell_51551c2e, cell_0b7ddd82, assign_tasks, for_task_in_tasks.
  cbn [app]. repeat apply Forall_cons_2; [| | |by apply Forall_nil].
  - by intros m Hm.
  - intros m Hm. rewrite bind_run. unfold load at 1.
    destruct (Globals.tasks (globals m)) as [l|]; [|exact Hm].
    apply for_each_preserves; [|exact Hm]. intros t. apply iteration_in_loop.
  - intros m [Ha Hm]. unfold await_disconnect. rewrite bind_run.
    unfold load at 1. destruct (Globals.mcp_toolkit (globals m)); [|by split].
    unfold call. split; [exact Ha|]. by apply loop_vars_log.
Qed.

(** After any run, [task] holds the last prompt the agent was invoked
    with and [response] the last response it returned; a name is unbound
    when there was no such prompt or response. *)
Theorem loop_variables_after_run w ts env file :
  Globals.task (globals (final w ts env file))
  = last (astep_tasks (log_of w ts env file))
  ∧ Globals.response (globals (final w ts env file))
    = last (responses (log_of w ts env file)).
Proof. exact (final_loop_vars w ts env file). Qed.

(** ** Cells run out of order, and the empty task tuple *)

(** The task cell run in a kernel where [agent] is not bound raises
    [NameError] at the first task, before any collaborator is called
    and before anything is printed; [tasks] and [task] are bound by
    then. *)
Theorem task_cell_needs_agent w m t rest :
  Globals.agent (globals m) = None →
  exec (cell_51551c2e w (t :: rest)) m
  = (Raise (NameError "agent"),
     update_globals (Globals.set_task t)
       (update_globals (Globals.set_tasks (t :: rest)) m)).
Proof.
  intros Ha. unfold cell_51551c2e, assign_tasks, for_task_in_tasks.
  rewrite exec_cons, store_run. cbv beta iota.
  rewrite exec_cons, bind_run. unfold load at 1.
  cbn [update_globals globals Globals.tasks Globals.set_tasks for_each].
  rewrite !bind_run, store_run. unfold loop_body.
  rewrite exec_cons. unfold assign_response. rewrite bind_run.
  unfold load at 1.
  cbn [update_globals globals Globals.agent Globals.set_task
       Globals.set_tasks].
  by rewrite Ha.
Qed.

(** Witness: the task cell in a fresh kernel. *)
Lemma task_cell_needs_agent_witness :
  Globals.agent (globals (boot ∅ ∅)) = None
  ∧ (exec (cell_51551c2e (mock_world (constant_agent "ok")) ["a"; "b"])
          (boot ∅ ∅)).1 = Raise (NameError "agent").
Proof.
  split; [reflexivity|].
  exact (f_equal fst (task_cell_needs_agent
                        (mock_world (constant_agent "ok"))
                        (boot ∅ ∅) "a" ["b"] eq_refl)).
Defined.

Ltac agent_cell_done :=
  split; [reflexivity|]; split; [by repeat constructor|];
  split; [reflexivity|]; cbn; by repeat split.

(** The teardown cell run in a kernel where [mcp_toolkit] is not bound
    raises [NameError] and changes nothing.  The agent cell run in such
    a kernel runs its four imports first, and never returns: when one of
    the imports raises, the cell ends with that exception; when all four
    return, the four imported names are bound and the cell raises
    [NameError] for [mcp_toolkit].  Either way the cell logs imports
    only (no collaborator is called, the environment is not read) and
    prints nothing. *)
Theorem toolkit_cells_need_toolkit w m :
  Globals.mcp_toolkit (globals m) = None →
  exec (cell_0b7ddd82 w) m = (Raise (NameError "mcp_toolkit"), m)
  ∧ ∃ evs,
      trace (exec (cell_834b52ff w) m).2 = trace m ++ evs
      ∧ Forall (λ ev, is_import ev = true) evs
      ∧ stdout (exec (cell_834b52ff w) m).2 = stdout m
      ∧ match last evs ≫= raised with
        | Some e => (exec (cell_834b52ff w) m).1 = Raise e
        | None =>
            (exec (cell_834b52ff w) m).1 = Raise (NameError "mcp_toolkit")
            ∧ length evs = 4
            ∧ agent_cell_imports_bound
                (globals m) (globals (exec (cell_834b52ff w) m).2)
        end.
Proof.
  intros Htk. split.
  - unfold cell_0b7ddd82. rewrite exec_cons.
    unfold await_disconnect. rewrite bind_run. unfold load at 1.
    by rewrite Htk.
  - destruct (exec (cell_834b52ff w) m) as [o m'] eqn:Hrun. cbn [fst snd].
    revert Hrun. unfold cell_834b52ff.
    unfold import_ChatAgent. rewrite exec_cons, from_import_run.
    destruct (w_import w _ _ _ _ _) as [[[]|e] e1]; cbv beta iota.
    2:{ intros [= <- <-]. eexists [_]. machine_simpl. agent_cell_done. }
    unfold import_BaseMessage. rewrite exec_cons, from_import_run.
    destruct (w_import w _ _ _ _ _) as [[[]|e] e2]; cbv beta iota.
    2:{ intros [= <- <-]. eexists [_; _]. machine_simpl.
        rewrite <- !app_assoc. agent_cell_done. }
    unfold import_ModelFactory. rewrite exec_cons, from_import_run.
    destruct (w_import w _ _ _ _ _) as [[[]|e] e3]; cbv beta iota.
    2:{ intros [= <- <-]. eexists [_; _; _]. machine_simpl.
        rewrite <- !app_assoc. agent_cell_done. }
    unfold import_ModelPlatformType. rewrite exec_cons, from_import_run.
    destruct (w_import w _ _ _ _ _) as [[[]|e] e4]; cbv beta iota.
    2:{ intros [= <- <-]. eexists [_; _; _; _]. machine_simpl.
        rewrite <- !app_assoc. agent_cell_done. }
    rewrite exec_cons. unfold assign_tools. rewrite bind_run. unfold load at 1.
    machine_simpl. rewrite Htk.
    intros [= <- <-]. eexists [_; _; _; _]. machine_simpl.
    rewrite <- !app_assoc. agent_cell_done.
Qed.

(** Witness: the two cells in a fresh kernel, with imports that return. *)
Lemma toolkit_cells_need_toolkit_witness :
  Globals.mcp_toolkit (globals (boot ∅ ∅)) = None
  ∧ exec (cell_0b7ddd82 (mock_world (constant_agent "ok"))) (boot ∅ ∅)
    = (Raise (NameError "mcp_toolkit"), boot ∅ ∅).
Proof.
  split; [reflexivity|].
  exact (proj1 (toolkit_cells_need_toolkit (mock_world (constant_agent "ok"))
                  (boot ∅ ∅) eq_refl)).
Defined.

(** With an empty task tuple the agent is never invoked, nothing is
    printed and the loop variables stay unbound, whatever the
    collaborators do. *)
Theorem empty_task_tuple w env file :
  astep_tasks (log_of w [] env file) = []
  ∧ stdout (final w [] env file) = EmptyString
  ∧ Globals.task (globals (final w [] env file)) = None
  ∧ Globals.response (globals (final w [] env file)) = None.
Proof.
  assert (astep_tasks (log_of w [] env file) = []
          ∧ responses (log_of w [] env file) = []) as [Ht Hr].
  { destruct (log_shape w [] env file)
      as [k ev0 tools e0 Hk Hc|tools zs t' rest e0 Hts|tools zs r Hts].
    - rewrite astep_tasks_startup_raised by done.
      by destruct (printed_startup_raised _ _ tools k ev0 e0 Hk Hc) as [_ ->].
    - by destruct zs.
    - destruct zs; [|done]. by destruct r. }
  destruct (final_quiet w [] env file) as (_ & Ho).
  change (trace (final w [] env file)) with (log_of w [] env file) in Ho.
  destruct (final_loop_vars w [] env file) as [Hgt Hgr].
  change (trace (final w [] env file)) with (log_of w [] env file) in Hgt, Hgr.
  rewrite Ho, printed_responses, Hgt, Hgr, Ht, Hr. done.
Qed.
